(** * Adaptive engine with a decaying performance score (P-Score)

    Shallow embedding of [src/adaptive_engine.py] ([AdaptiveEngine]) and of
    the dispatch in [src/puzzle_generator.py] ([PuzzleGenerator.generate_puzzle]).

    Modelling choices:
    - the Python float [p_score] and the response time are exact rationals [Q]
      (the spec describes the score as a real number); the literal [0.9] is
      [9/10] and the thresholds are [5] and [-3];
    - [current_difficulty_index] is a Python int, hence [Z];
    - [difficulty_levels] and [decay_factor] are assigned once in [__init__]
      and never written again, so they are global constants here;
    - the methods run in a state-and-exception monad [M]: a Python exception
      is [inl e] and keeps the state reached when it was raised. *)

From Stdlib Require Import ZArith QArith Qround List String Bool Lia Lqa Sorted.
Import ListNotations.
Open Scope Z_scope.

(** ** Python exceptions and the state-and-exception monad *)

Inductive exn : Type :=
| IndexError : string -> exn
| ValueError : string -> exn.

Definition ST (S A : Type) : Type := S -> (exn + A) * S.

Definition ret {S A} (a : A) : ST S A := fun s => (inr a, s).

Definition bind {S A B} (m : ST S A) (k : A -> ST S B) : ST S B :=
  fun s => match m s with
           | (inl e, s') => (inl e, s')
           | (inr a, s') => k a s'
           end.

Definition raise {S A} (e : exn) : ST S A := fun s => (inl e, s).
Definition get {S} : ST S S := fun s => (inr s, s).
Definition put {S} (s : S) : ST S unit := fun _ => (inr tt, s).

Notation "x <- m ;; k" := (bind m (fun x => k))
  (at level 61, m at next level, right associativity).
Notation "m ;;; k" := (bind m (fun _ => k))
  (at level 61, right associativity).

(** Python list indexing [l[i]]: negative indices count from the end,
    anything else out of range raises [IndexError]. *)
Definition py_index {A} (l : list A) (i : Z) : option A :=
  let n := Z.of_nat (List.length l) in
  if (0 <=? i) && (i <? n) then nth_error l (Z.to_nat i)
  else if (- n <=? i) && (i <? 0) then nth_error l (Z.to_nat (i + n))
  else None.

(** ** AdaptiveEngine *)

Record engine : Type := mk_engine {
  p_score : Q;
  current_difficulty_index : Z
}.

Definition difficulty_levels : list string := ["Easy"; "Medium"; "Hard"]%string.
Definition decay_factor : Q := 9 # 10.

(** [__init__] *)
Definition init : engine := mk_engine 0%Q 0.

Definition set_p_score (p : Q) (s : engine) : engine :=
  mk_engine p (current_difficulty_index s).
Definition set_index (i : Z) (s : engine) : engine :=
  mk_engine (p_score s) i.

Definition M := ST engine.

(** [current_difficulty] (a property) *)
Definition current_difficulty : M string :=
  s <- get ;;
  match py_index difficulty_levels (current_difficulty_index s) with
  | Some d => ret d
  | None => raise (IndexError "list index out of range")
  end.

(** [_check_difficulty_transition] *)
Definition check_difficulty_transition : M bool :=
  s <- get ;;
  if Qle_bool 5 (p_score s)
     && (current_difficulty_index s <? Z.of_nat (List.length difficulty_levels) - 1)
  then
    put (mk_engine 0%Q (current_difficulty_index s + 1)) ;;; ret true
  else if Qle_bool (p_score s) (-3)%Q
          && (0 <? current_difficulty_index s)
  then
    put (mk_engine 0%Q (current_difficulty_index s - 1)) ;;; ret true
  else ret false.

Definition rationale_high_fluency : string :=
  "High Fluency - Correct answer with quick response".
Definition rationale_accuracy : string :=
  "Accuracy - Correct but slow response".
Definition rationale_inaccurate : string :=
  "Inaccurate - Incorrect answer indicates knowledge gap".

(** The dictionary returned by [update_performance]. *)
Record update_result : Type := mk_update_result {
  old_score : Q;
  new_score : Q;
  score_change : Q;
  old_difficulty : string;
  new_difficulty : string;
  transition_occurred : bool;
  rationale : string
}.

(** The reward/penalty block of [update_performance] (lines 49-61):
    it adds to [self.p_score] and yields the rationale string. *)
Definition apply_outcome (is_correct : bool) (response_time : Q) : M string :=
  if is_correct then
    if Qle_bool response_time 5 then
      s <- get ;; put (set_p_score (p_score s + 2)%Q s) ;;;
      ret rationale_high_fluency
    else
      s <- get ;; put (set_p_score (p_score s + 1)%Q s) ;;;
      ret rationale_accuracy
  else
    s <- get ;; put (set_p_score (p_score s - 3)%Q s) ;;;
    ret rationale_inaccurate.

(** [update_performance] *)
Definition update_performance (is_correct : bool) (response_time : Q)
  : M update_result :=
  s0 <- get ;;
  let old_score := p_score s0 in
  old_difficulty <- current_difficulty ;;
  rationale <- apply_outcome is_correct response_time ;;
  s1 <- get ;;
  put (set_p_score (p_score s1 * decay_factor)%Q s1) ;;;
  transition_occurred <- check_difficulty_transition ;;
  s2 <- get ;;
  new_difficulty <- current_difficulty ;;
  ret (mk_update_result old_score (p_score s2)
         (p_score s2 - old_score * decay_factor)%Q
         old_difficulty new_difficulty transition_occurred rationale).

(** The dictionary returned by [get_status]. *)
Record status : Type := mk_status {
  st_p_score : Q;
  st_difficulty : string;
  st_difficulty_index : Z;
  st_increase_threshold : Q;
  st_decrease_threshold : Q
}.

(** Python's [round(x, 2)]: round half to even on [x * 100]. *)
Definition round_half_even (y : Q) : Z :=
  let f := Qfloor y in
  let r := (y - inject_Z f)%Q in
  if negb (Qle_bool (1 # 2) r) then f
  else if negb (Qle_bool r (1 # 2)) then f + 1
  else if Z.even f then f else f + 1.

Definition round2 (x : Q) : Q := round_half_even (x * 100) # 100.

(** [get_status] *)
Definition get_status : M status :=
  s <- get ;;
  d <- current_difficulty ;;
  ret (mk_status (round2 (p_score s)) d (current_difficulty_index s)
         5%Q (-3)%Q).

(** ** PuzzleGenerator.generate_puzzle

    The three generators draw from [random] and never raise; they are kept
    abstract as functions of the random source [Rng].  [operations] is the dictionary
    built in [__init__]. *)

Record puzzle : Type := mk_puzzle {
  question : string;
  answer : Z;
  puzzle_difficulty : string
}.

Section PuzzleGenerator.
Context {Rng : Type}.
Variables gen_easy gen_medium gen_hard : Rng -> puzzle * Rng.

Definition operations : list (string * (Rng -> puzzle * Rng)) :=
  [("Easy", gen_easy); ("Medium", gen_medium); ("Hard", gen_hard)]%string.

Definition generate_puzzle (difficulty : string) : ST Rng puzzle :=
  match find (fun kv => String.eqb (fst kv) difficulty) operations with
  | None => raise (ValueError ("Unknown difficulty: " ++ difficulty))
  | Some (_, gen) => fun r => let '(p, r') := gen r in (inr p, r')
  end.
End PuzzleGenerator.

(** ** Sessions: the states reachable from [__init__] by any sequence of
    [update_performance] and [get_status] calls. *)

Inductive reachable : engine -> Prop :=
| reach_init : reachable init
| reach_update b t s x s' :
    reachable s -> update_performance b t s = (x, s') -> reachable s'
| reach_status s x s' :
    reachable s -> get_status s = (x, s') -> reachable s'.

(** The pre-decay delta of the reward/penalty block. *)
Definition delta (is_correct : bool) (response_time : Q) : Q :=
  if is_correct then if Qle_bool response_time 5 then 2 else 1 else -3.

(** The rationale string chosen by the reward/penalty block. *)
Definition rationale_of (is_correct : bool) (response_time : Q) : string :=
  if is_correct then
    if Qle_bool response_time 5 then rationale_high_fluency
    else rationale_accuracy
  else rationale_inaccurate.

(** The effect of [_check_difficulty_transition] on a score and an index,
    as a pure function: the flag it returns and the state it leaves. *)
Definition transition_target (p : Q) (i : Z) : bool * engine :=
  if Qle_bool 5 p && (i <? 2) then (true, mk_engine 0%Q (i + 1))
  else if Qle_bool p (-3)%Q && (0 <? i) then (true, mk_engine 0%Q (i - 1))
  else (false, mk_engine p i).

Definition index_error : exn := IndexError "list index out of range".

(** A session driver in the manner of [main.py]: one [update_performance]
    call per outcome, in order. *)
Fixpoint run (outcomes : list (bool * Q)) (s : engine) : engine :=
  match outcomes with
  | [] => s
  | (b, t) :: rest => run rest (snd (update_performance b t s))
  end.

(** [n] correct answers given in one second each. *)
Definition fast_streak (n : nat) : list (bool * Q) := repeat (true, 1%Q) n.

(** A generator that always yields the same puzzle. *)
Definition const_gen (r : unit) : puzzle * unit := (mk_puzzle "1 + 1" 2 "Easy", r).

(** ** The outside world: Python's [random] module and [time]

    [random.randint], [random.random], [time.time] and [time.sleep] are the
    methods of a world state [W]; [WorldSpec] is what the [random] module
    documents about them. *)

Class World (W : Type) := {
  randint : Z -> Z -> W -> Z * W;
  random : W -> Q * W;
  time_now : W -> Q * W;
  sleep : Q -> W -> W
}.

Class WorldSpec (W : Type) `{World W} : Prop := {
  randint_range : forall a b w, a <= b -> a <= fst (randint a b w) <= b;
  random_range : forall w, (0 <= fst (random w) < 1)%Q
}.

(** A state monad over the world, for code that cannot raise. *)
Definition Rand (W A : Type) : Type := W -> A * W.

Definition rbind {W A B} (m : Rand W A) (k : A -> Rand W B) : Rand W B :=
  fun w => let '(a, w') := m w in k a w'.
Definition rret {W A} (a : A) : Rand W A := fun w => (a, w).

Notation "x <-$ m ;; k" := (rbind m (fun x => k))
  (at level 61, m at next level, right associativity).

Section Draws.
Context {W : Type} `{World W}.

Definition rand_int (a b : Z) : Rand W Z := randint a b.
Definition rand_random : Rand W Q := random.

(** [random.uniform(a, b)] is [a + (b - a) * random()]. *)
Definition uniform (a b : Q) : Rand W Q :=
  x <-$ rand_random ;; rret (a + (b - a) * x)%Q.

(** [random.choice(seq)] picks [seq[i]] for a draw [i] in
    [[0, len(seq) - 1]]; it is only called on non-empty literal lists, and
    the drawn index is in range, so the head default of [nth] is never
    taken. *)
Definition choice {A} (x : A) (xs : list A) : Rand W A :=
  i <-$ rand_int 0 (Z.of_nat (List.length (x :: xs)) - 1) ;;
  rret (nth (Z.to_nat i) (x :: xs) x).
End Draws.

Local Open Scope string_scope.

(** [str(n)] for a Python int. *)
Fixpoint digits (fuel : nat) (n : Z) (acc : string) : string :=
  let acc' := String (Ascii.ascii_of_nat (48 + Z.to_nat (n mod 10))) acc in
  match fuel with
  | O => acc'
  | S f => if (n <? 10)%Z then acc' else digits f (n / 10) acc'
  end.

Definition str_Z (n : Z) : string :=
  let fuel := Z.to_nat (Z.log2 (Z.abs n)) in
  if (n <? 0)%Z then "-" ++ digits fuel (- n) "" else digits fuel n "".

(** ** The three puzzle generators of [PuzzleGenerator] *)

Section Generators.
Context {W : Type} `{World W}.

(** [_generate_easy_puzzle] *)
Definition generate_easy_puzzle : Rand W puzzle :=
  operation <-$ choice "+" ["-"] ;;
  if String.eqb operation "+" then
    a <-$ rand_int 1 9 ;; b <-$ rand_int 1 9 ;;
    rret (mk_puzzle (str_Z a ++ " + " ++ str_Z b) (a + b) "Easy")
  else
    a <-$ rand_int 5 9 ;; b <-$ rand_int 1 a ;;
    rret (mk_puzzle (str_Z a ++ " - " ++ str_Z b) (a - b) "Easy").

(** [_generate_medium_puzzle] *)
Definition generate_medium_puzzle : Rand W puzzle :=
  operation <-$ choice "+" ["-"; "*"] ;;
  if String.eqb operation "+" then
    a <-$ rand_int 10 50 ;; b <-$ rand_int 10 50 ;;
    rret (mk_puzzle (str_Z a ++ " + " ++ str_Z b) (a + b) "Medium")
  else if String.eqb operation "-" then
    a <-$ rand_int 20 99 ;; b <-$ rand_int 10 a ;;
    rret (mk_puzzle (str_Z a ++ " - " ++ str_Z b) (a - b) "Medium")
  else
    a <-$ rand_int 2 9 ;; b <-$ rand_int 2 12 ;;
    rret (mk_puzzle (str_Z a ++ " × " ++ str_Z b) (a * b) "Medium").

(** [_generate_hard_puzzle] *)
Definition generate_hard_puzzle : Rand W puzzle :=
  puzzle_type <-$ choice "multi_step" ["large_numbers"; "division"] ;;
  if String.eqb puzzle_type "multi_step" then
    a <-$ rand_int 5 15 ;; b <-$ rand_int 5 15 ;; c <-$ rand_int 2 8 ;;
    rret (mk_puzzle ("(" ++ str_Z a ++ " + " ++ str_Z b ++ ") × " ++ str_Z c)
                    ((a + b) * c) "Hard")
  else if String.eqb puzzle_type "large_numbers" then
    operation <-$ choice "+" ["-"] ;;
    if String.eqb operation "+" then
      a <-$ rand_int 100 500 ;; b <-$ rand_int 100 500 ;;
      rret (mk_puzzle (str_Z a ++ " + " ++ str_Z b) (a + b) "Hard")
    else
      a <-$ rand_int 200 999 ;; b <-$ rand_int 100 a ;;
      rret (mk_puzzle (str_Z a ++ " - " ++ str_Z b) (a - b) "Hard")
  else
    quotient <-$ rand_int 5 20 ;; divisor <-$ rand_int 3 12 ;;
    let dividend := quotient * divisor in
    rret (mk_puzzle (str_Z dividend ++ " ÷ " ++ str_Z divisor) quotient "Hard").

(** [PuzzleGenerator().generate_puzzle] with its three generators. *)
Definition py_generate_puzzle (difficulty : string) : ST W puzzle :=
  generate_puzzle generate_easy_puzzle generate_medium_puzzle
                  generate_hard_puzzle difficulty.
End Generators.

(** A concrete world for examples: a linear congruential generator and a
    clock that advances by one millisecond per reading. *)
Record lcg_world : Type := mk_lcg { seed : Z; clock : Q }.

Definition lcg_next (s : Z) : Z := (s * 1103515245 + 12345) mod 2147483648.

#[export] Instance lcg_World : World lcg_world := {
  randint a b w :=
    (a + seed w mod (b - a + 1), mk_lcg (lcg_next (seed w)) (clock w));
  random w :=
    ((seed w mod 1000) # 1000, mk_lcg (lcg_next (seed w)) (clock w));
  time_now w := (clock w, mk_lcg (seed w) (clock w + (1 # 1000))%Q);
  sleep d w := mk_lcg (seed w) (clock w + d)%Q
}.

Local Close Scope string_scope.

(** ** [simulate_user_response] (main.py) *)

(** Python's [x < y] on numbers. *)
Definition Qltb (x y : Q) : bool := negb (Qle_bool y x).

(** [int(x)] truncates towards zero. *)
Definition py_int (x : Q) : Z :=
  if Qle_bool 0 x then Qfloor x else - Qfloor (- x).

Section Simulation.
Context {W : Type} `{World W}.

Definition simulate_user_response (p : puzzle) (difficulty : string)
  : Rand W (Z * Q * bool) :=
  let correct_answer := answer p in
  bt_acc <-$
    (if String.eqb difficulty "Easy" then
       bt <-$ uniform 2 6 ;; rret (bt, 85 # 100)
     else if String.eqb difficulty "Medium" then
       bt <-$ uniform 4 10 ;; rret (bt, 70 # 100)
     else
       bt <-$ uniform 6 15 ;; rret (bt, 55 # 100)) ;;
  let '(base_time, accuracy_chance) := bt_acc in
  x <-$ rand_random ;;
  let is_correct := Qltb x accuracy_chance in
  if is_correct then
    f <-$ uniform (7 # 10) 1 ;;
    rret (correct_answer, (base_time * f)%Q, true)
  else
    y <-$ rand_random ;;
    user_answer <-$
      (if Qltb y (1 # 2) then
         c <-$ choice (-2) [-1; 1; 2] ;; rret (correct_answer + c)
       else
         u <-$ uniform (1 # 2) (3 # 2) ;;
         rret (py_int (inject_Z correct_answer * u))) ;;
    f <-$ uniform 1 (14 # 10) ;;
    rret (user_answer, (base_time * f)%Q, false).
End Simulation.

(** ** [PerformanceTracker] (tracker.py) *)

Record attempt : Type := mk_attempt {
  at_timestamp : Q;
  at_question : string;
  at_correct_answer : Z;
  at_user_answer : Z;
  at_response_time : Q;
  at_is_correct : bool;
  at_difficulty : string;
  at_p_score_after : Q;
  at_attempt_number : Z
}.

Record transition_record : Type := mk_transition_record {
  tr_attempt_number : Z;
  tr_from_difficulty : string;
  tr_to_difficulty : string;
  tr_trigger_p_score : Q;
  tr_timestamp : Q
}.

Record tracker : Type := mk_tracker {
  session_start : Q;
  attempts : list attempt;
  difficulty_transitions : list transition_record
}.

(** The dictionary returned by [get_session_summary] when there are
    attempts. *)
Record session_summary : Type := mk_session_summary {
  sm_total_attempts : Z;
  sm_correct_attempts : Z;
  sm_accuracy_rate : Q;
  sm_avg_response_time : Q;
  sm_fast_responses : Z;
  sm_fast_response_rate : Q;
  sm_difficulty_distribution : list (string * Z);
  sm_difficulty_transitions : Z;
  sm_final_p_score : Q;
  sm_p_score_min : Q;
  sm_p_score_max : Q;
  sm_session_duration : Q
}.

Inductive summary_result : Type :=
| SummaryError : string -> summary_result
| Summary : session_summary -> summary_result.

(** The dictionary returned by [get_recent_performance]. *)
Record recent_performance : Type := mk_recent_performance {
  rp_attempts_analyzed : Z;
  rp_recent_accuracy : Q;
  rp_recent_correct : Z;
  rp_trend : string
}.

Inductive recent_result : Type :=
| RecentError : string -> recent_result
| Recent : recent_performance -> recent_result.

Definition round1 (x : Q) : Q := round_half_even (x * 10) # 10.

(** [sum(1 for x in xs if f(x))] *)
Definition count_if {A} (f : A -> bool) (xs : list A) : Z :=
  fold_left (fun n x => if f x then n + 1 else n) xs 0.

(** A Python dict with string keys, in insertion order: [d.get(k, dflt)]
    and [d[k] = v]. *)
Fixpoint dict_get (d : list (string * Z)) (k : string) (dflt : Z) : Z :=
  match d with
  | [] => dflt
  | (k', v) :: d' => if String.eqb k' k then v else dict_get d' k dflt
  end.

Fixpoint dict_set (d : list (string * Z)) (k : string) (v : Z)
  : list (string * Z) :=
  match d with
  | [] => [(k, v)]
  | (k', v') :: d' =>
      if String.eqb k' k then (k', v) :: d' else (k', v') :: dict_set d' k v
  end.

(** [min] and [max] of a non-empty Python list: the first extreme item. *)
Definition py_min (x : Q) (xs : list Q) : Q :=
  fold_left (fun m y => if Qltb y m then y else m) xs x.
Definition py_max (x : Q) (xs : list Q) : Q :=
  fold_left (fun m y => if Qltb m y then y else m) xs x.

(** [lst[start:]] for a Python list. *)
Definition py_slice_from {A} (l : list A) (start : Z) : list A :=
  let n := Z.of_nat (List.length l) in
  let s := if start <? 0 then Z.max 0 (n + start) else Z.min start n in
  skipn (Z.to_nat s) l.

Section Tracker.
Context {W : Type} `{World W}.

(** [__init__] *)
Definition tracker_init : Rand W tracker :=
  t <-$ time_now ;; rret (mk_tracker t [] []).

(** [record_attempt] *)
Definition record_attempt (tr : tracker) (p : puzzle) (user_answer : Z)
  (response_time : Q) (is_correct : bool) (engine_status : status)
  : Rand W tracker :=
  now <-$ time_now ;;
  let a := mk_attempt (now - session_start tr)%Q (question p) (answer p)
             user_answer response_time is_correct (puzzle_difficulty p)
             (st_p_score engine_status)
             (Z.of_nat (List.length (attempts tr)) + 1) in
  rret (mk_tracker (session_start tr) (attempts tr ++ [a])
                   (difficulty_transitions tr)).

(** [record_difficulty_transition] *)
Definition record_difficulty_transition (tr : tracker)
  (old_difficulty new_difficulty : string) (p_score : Q) (attempt_number : Z)
  : Rand W tracker :=
  now <-$ time_now ;;
  let t := mk_transition_record attempt_number old_difficulty new_difficulty
             p_score (now - session_start tr)%Q in
  rret (mk_tracker (session_start tr) (attempts tr)
                   (difficulty_transitions tr ++ [t])).

(** [get_session_summary] *)
Definition get_session_summary (tr : tracker) : Rand W summary_result :=
  match attempts tr with
  | [] => rret (SummaryError "No attempts recorded")
  | a0 :: _ =>
      let atts := attempts tr in
      let total_attempts := Z.of_nat (List.length atts) in
      let correct_attempts := count_if at_is_correct atts in
      let accuracy_rate := (inject_Z correct_attempts / inject_Z total_attempts)%Q in
      let response_times := map at_response_time atts in
      let avg_response_time :=
        (fold_left Qplus response_times 0 /
         inject_Z (Z.of_nat (List.length response_times)))%Q in
      let fast_responses := count_if (fun rt => Qle_bool rt 5) response_times in
      let difficulty_counts :=
        fold_left (fun d a =>
                     dict_set d (at_difficulty a)
                              (dict_get d (at_difficulty a) 0 + 1))
                  atts [] in
      let p_score_progression := map at_p_score_after atts in
      let final_p_score := last p_score_progression 0%Q in
      now <-$ time_now ;;
      rret (Summary (mk_session_summary
        total_attempts correct_attempts
        (round1 (accuracy_rate * 100))
        (round2 avg_response_time)
        fast_responses
        (round1 (inject_Z fast_responses / inject_Z total_attempts * 100))
        difficulty_counts
        (Z.of_nat (List.length (difficulty_transitions tr)))
        (round2 final_p_score)
        (round2 (py_min (at_p_score_after a0) (tl p_score_progression)))
        (round2 (py_max (at_p_score_after a0) (tl p_score_progression)))
        (round1 (now - session_start tr))))
  end.
End Tracker.

(** [get_recent_performance] (reads no clock) *)
Definition get_recent_performance (tr : tracker) (last_n : Z) : recent_result :=
  let recent_attempts :=
    if Z.of_nat (List.length (attempts tr)) <? last_n then attempts tr
    else py_slice_from (attempts tr) (- last_n) in
  match recent_attempts with
  | [] => RecentError "No recent attempts"
  | _ =>
      let recent_correct := count_if at_is_correct recent_attempts in
      let recent_accuracy :=
        (inject_Z recent_correct /
         inject_Z (Z.of_nat (List.length recent_attempts)))%Q in
      Recent (mk_recent_performance
        (Z.of_nat (List.length recent_attempts))
        (round1 (recent_accuracy * 100))
        recent_correct
        (if Qltb (6 # 10) recent_accuracy then "improving" else "struggling"))
  end.


(** ** [run_math_adventures_session] (main.py)

    The session owns an engine, a tracker and the world.  Printing has no
    effect on any of them and is left out; the dictionary lookups the
    printing does are kept, since a missing key raises [KeyError]. *)

Inductive session_exn : Type :=
| EngineError : exn -> session_exn
| KeyError : string -> session_exn.

Record session (W : Type) : Type := mk_session {
  eng : engine;
  trk : tracker;
  wld : W
}.
Arguments mk_session {W}.
Arguments eng {W}.
Arguments trk {W}.
Arguments wld {W}.

Definition SM (W A : Type) : Type :=
  session W -> (session_exn + A) * session W.

Definition sbind {W A B} (m : SM W A) (k : A -> SM W B) : SM W B :=
  fun s => match m s with
           | (inl e, s') => (inl e, s')
           | (inr a, s') => k a s'
           end.
Definition sret {W A} (a : A) : SM W A := fun s => (inr a, s).
Definition sraise {W A} (e : session_exn) : SM W A := fun s => (inl e, s).

Notation "x <-! m ;; k" := (sbind m (fun x => k))
  (at level 61, m at next level, right associativity).
Notation "m ;;! k" := (sbind m (fun _ => k))
  (at level 61, right associativity).

(** Calling a method of the engine. *)
Definition on_engine {W A} (m : M A) : SM W A :=
  fun s => let '(x, e') := m (eng s) in
           (match x with inl e => inl (EngineError e) | inr a => inr a end,
            mk_session e' (trk s) (wld s)).

(** Code that draws from the world and may raise. *)
Definition on_world {W A} (m : ST W A) : SM W A :=
  fun s => let '(x, w') := m (wld s) in
           (match x with inl e => inl (EngineError e) | inr a => inr a end,
            mk_session (eng s) (trk s) w').

(** Code that draws from the world and cannot raise. *)
Definition draw {W A} (m : Rand W A) : SM W A :=
  fun s => let '(a, w') := m (wld s) in (inr a, mk_session (eng s) (trk s) w').

(** Calling a method of the tracker. *)
Definition on_tracker {W} (f : tracker -> Rand W tracker) : SM W unit :=
  fun s => let '(t', w') := f (trk s) (wld s) in
           (inr tt, mk_session (eng s) t' w').

Section Session.
Context {W : Type} `{World W}.

(** One iteration of the main loop. *)
Definition session_turn (turn : Z) : SM W unit :=
  d <-! on_engine current_difficulty ;;
  p <-! on_world (py_generate_puzzle d) ;;
  d2 <-! on_engine current_difficulty ;;
  resp <-! draw (simulate_user_response p d2) ;;
  let '(user_answer, response_time, is_correct) := resp in
  update_info <-! on_engine (update_performance is_correct response_time) ;;
  st <-! on_engine get_status ;;
  on_tracker (fun t => record_attempt t p user_answer response_time
                                      is_correct st) ;;!
  (if transition_occurred update_info then
     on_tracker (fun t => record_difficulty_transition t
                            (old_difficulty update_info)
                            (new_difficulty update_info)
                            (old_score update_info) turn)
   else sret tt) ;;!
  _ <-! on_engine get_status ;;
  draw (fun w => (tt, sleep (1 # 10) w)).

(** [for turn in range(first, first + fuel)] *)
Fixpoint session_loop (fuel : nat) (turn : Z) : SM W unit :=
  match fuel with
  | O => sret tt
  | S f => session_turn turn ;;! session_loop f (turn + 1)
  end.

(** The analysis after the loop: the keys read from the summary and from the
    recent performance. *)
Definition session_report : SM W unit :=
  s <-! (fun s => (inr s, s)) ;;
  summary <-! draw (get_session_summary (trk s)) ;;
  match summary with
  | SummaryError _ => sraise (KeyError "total_attempts")
  | Summary _ =>
      match get_recent_performance (trk s) 5 with
      | RecentError _ => sraise (KeyError "recent_accuracy")
      | Recent _ => sret tt
      end
  end.

(** [run_math_adventures_session(num_turns)]: a fresh engine, generator and
    tracker, [num_turns] turns, then the report. *)
Definition run_math_adventures_session (num_turns : Z) (w : W)
  : (session_exn + unit) * session W :=
  let '(t0, w1) := tracker_init w in
  (session_loop (Z.to_nat num_turns) 1 ;;! session_report)
    (mk_session init t0 w1).
End Session.

(** What the main loop keeps after [n] turns: the engine is a session
    state, the attempts are numbered [1 .. n] and carry a difficulty label,
    and the transitions are logged between two distinct labels at turn
    numbers in [[1, n]], in increasing order. *)
Definition session_inv {W} (s : session W) (n : nat) : Prop :=
  reachable (eng s) /\
  map at_attempt_number (attempts (trk s)) = map Z.of_nat (seq 1 n) /\
  Forall (fun a => In (at_difficulty a) difficulty_levels) (attempts (trk s)) /\
  Forall (fun t => tr_from_difficulty t <> tr_to_difficulty t /\
                   In (tr_from_difficulty t) difficulty_levels /\
                   In (tr_to_difficulty t) difficulty_levels /\
                   1 <= tr_attempt_number t <= Z.of_nat n)
         (difficulty_transitions (trk s)) /\
  StronglySorted Z.lt (map tr_attempt_number (difficulty_transitions (trk s))).

(** ** Unfolding lemmas *)

Lemma apply_outcome_eq b t s :
  apply_outcome b t s =
  (inr (rationale_of b t), set_p_score (p_score s + delta b t)%Q s).
Proof.
  unfold apply_outcome, delta, rationale_of.
  destruct b; [destruct (Qle_bool t 5)|]; reflexivity.
Qed.

Lemma check_difficulty_transition_eq s :
  check_difficulty_transition s =
  let '(tr, s') := transition_target (p_score s) (current_difficulty_index s) in
  (inr tr, s').
Proof.
  destruct s as [p i]. unfold check_difficulty_transition, transition_target.
  unfold bind at 1, get at 1. cbn [p_score current_difficulty_index].
  change (Z.of_nat (List.length difficulty_levels) - 1) with 2.
  destruct (Qle_bool 5 p && (i <? 2)); [reflexivity|].
  destruct (Qle_bool p (-3) && (0 <? i)); reflexivity.
Qed.

Lemma current_difficulty_eq s :
  current_difficulty s =
  match py_index difficulty_levels (current_difficulty_index s) with
  | Some d => (inr d, s)
  | None => (inl index_error, s)
  end.
Proof. unfold current_difficulty, bind, get. destruct py_index; reflexivity. Qed.

Lemma update_performance_eq b t s :
  update_performance b t s =
  match py_index difficulty_levels (current_difficulty_index s) with
  | None => (inl index_error, s)
  | Some od =>
      let '(tr, s2) :=
        transition_target ((p_score s + delta b t) * decay_factor)%Q
                          (current_difficulty_index s) in
      match py_index difficulty_levels (current_difficulty_index s2) with
      | None => (inl index_error, s2)
      | Some nd =>
          (inr (mk_update_result (p_score s) (p_score s2)
                  (p_score s2 - p_score s * decay_factor)%Q
                  od nd tr (rationale_of b t)), s2)
      end
  end.
Proof.
  unfold update_performance.
  unfold bind at 1. unfold get at 1.
  unfold bind at 1. rewrite current_difficulty_eq.
  destruct (py_index difficulty_levels (current_difficulty_index s)) as [od|];
    [|reflexivity].
  unfold bind at 1. rewrite apply_outcome_eq.
  unfold bind at 1, get at 1, bind at 1, put at 1, bind at 1.
  rewrite check_difficulty_transition_eq. cbn [set_p_score p_score current_difficulty_index].
  destruct (transition_target _ _) as [tr s2].
  unfold bind at 1, get at 1, bind at 1. rewrite current_difficulty_eq.
  destruct (py_index difficulty_levels (current_difficulty_index s2)); reflexivity.
Qed.

(** ** Comparison and range lemmas *)

Lemma Qle_bool_false x y : Qle_bool x y = false <-> (y < x)%Q.
Proof.
  split; intro H.
  - apply Qnot_le_lt. intro H'. apply Qle_bool_iff in H'. congruence.
  - destruct (Qle_bool x y) eqn:E; [|reflexivity].
    apply Qle_bool_iff in E. exfalso. apply (Qlt_not_le y x); assumption.
Qed.

Ltac norm_cmp :=
  repeat match goal with
  | H : Qle_bool _ _ = true |- _ => apply Qle_bool_iff in H
  | H : Qle_bool _ _ = false |- _ => apply Qle_bool_false in H
  | H : (_ <? _)%Z = true |- _ => apply Z.ltb_lt in H
  | H : (_ <? _)%Z = false |- _ => apply Z.ltb_ge in H
  end.

Lemma py_index_levels_some i :
  py_index difficulty_levels i <> None <-> -3 <= i <= 2.
Proof.
  split.
  - unfold py_index. cbv zeta.
    change (Z.of_nat (List.length difficulty_levels)) with 3.
    destruct (0 <=? i) eqn:A, (i <? 3) eqn:B, (Z.opp 3 <=? i) eqn:C,
      (i <? 0) eqn:D; cbn [andb]; intro H;
      rewrite ?Z.leb_le, ?Z.leb_gt, ?Z.ltb_lt, ?Z.ltb_ge in *;
      solve [lia | congruence].
  - intro H. assert (i = -3 \/ i = -2 \/ i = -1 \/ i = 0 \/ i = 1 \/ i = 2)
      as Hc by lia.
    destruct Hc as [ -> | [ -> | [ -> | [ -> | [ -> | -> ] ] ] ] ]; discriminate.
Qed.

Lemma delta_range b t : (-3 <= delta b t <= 2)%Q.
Proof. unfold delta. destruct b; [destruct (Qle_bool t 5)|]; split; lra. Qed.

Lemma py_index_levels_step i x y :
  py_index difficulty_levels i = Some x ->
  py_index difficulty_levels (i + 1) = Some y -> x <> y.
Proof.
  intros Hx Hy.
  assert (Ri : -3 <= i <= 2) by (apply py_index_levels_some; congruence).
  assert (Rj : -3 <= i + 1 <= 2) by (apply py_index_levels_some; congruence).
  assert (i = -3 \/ i = -2 \/ i = -1 \/ i = 0 \/ i = 1) as Hc by lia.
  destruct Hc as [ -> | [ -> | [ -> | [ -> | -> ] ] ] ];
    cbv in Hx, Hy; inversion Hx; inversion Hy; subst; discriminate.
Qed.

(** A call on a state whose index is a valid Python index never raises. *)
Lemma update_performance_ok b t s :
  py_index difficulty_levels (current_difficulty_index s) <> None ->
  exists r s', update_performance b t s = (inr r, s') /\
               rationale r = rationale_of b t /\
               s' = snd (transition_target
                           ((p_score s + delta b t) * decay_factor)%Q
                           (current_difficulty_index s)).
Proof.
  intro Hs. pose proof (proj1 (py_index_levels_some _) Hs) as R.
  rewrite update_performance_eq.
  destruct (py_index difficulty_levels (current_difficulty_index s)) as [od|];
    [|congruence].
  destruct (transition_target _ _) as [tr s2] eqn:Ht.
  assert (R2 : -3 <= current_difficulty_index s2 <= 2).
  { unfold transition_target in Ht.
    destruct (Qle_bool 5 _ && _) eqn:E1;
      [|destruct (Qle_bool _ (-3)%Q && _) eqn:E2];
      inversion Ht; subst; cbn [current_difficulty_index];
      rewrite ?andb_true_iff in *; rewrite ?Z.ltb_lt in *; lia. }
  apply py_index_levels_some in R2.
  destruct (py_index difficulty_levels (current_difficulty_index s2)) as [nd|];
    [|congruence].
  eexists; eexists; repeat split.
Qed.

Lemma get_status_state s : snd (get_status s) = s.
Proof.
  unfold get_status, bind, get. rewrite current_difficulty_eq.
  destruct py_index; reflexivity.
Qed.

(** The session invariant: the index is in range and decay keeps the score
    within [[-27, 18]]. *)
Definition engine_inv (s : engine) : Prop :=
  0 <= current_difficulty_index s <= 2 /\ (-27 <= p_score s <= 18)%Q.

Lemma update_performance_inv b t s x s' :
  engine_inv s -> update_performance b t s = (x, s') -> engine_inv s'.
Proof.
  intros [Hi Hp] H. rewrite update_performance_eq in H.
  destruct (py_index difficulty_levels (current_difficulty_index s));
    [|inversion H; subst; split; assumption].
  pose proof (delta_range b t) as Hd.
  destruct (transition_target _ _) as [tr s2] eqn:Ht.
  assert (engine_inv s2).
  { unfold transition_target, decay_factor in Ht.
    destruct (Qle_bool 5 _ && _) eqn:E1;
      [|destruct (Qle_bool _ (-3)%Q && _) eqn:E2];
      inversion Ht; subst; unfold engine_inv; cbn [current_difficulty_index p_score];
      rewrite ?andb_true_iff, ?andb_false_iff in *; rewrite ?Z.ltb_lt, ?Z.ltb_ge in *;
      (split; [lia | lra]). }
  destruct (py_index difficulty_levels (current_difficulty_index s2));
    inversion H; subst; assumption.
Qed.

Lemma reachable_inv s : reachable s -> engine_inv s.
Proof.
  induction 1 as [| b t s x s' _ IH H | s x s' _ IH H].
  - unfold engine_inv, init; cbn; split; [lia | lra].
  - eapply update_performance_inv; eassumption.
  - pose proof (get_status_state s) as E. rewrite H in E. cbn in E.
    subst; assumption.
Qed.

Lemma run_reachable outcomes s : reachable s -> reachable (run outcomes s).
Proof.
  revert s. induction outcomes as [|[b t] rest IH]; intros s H; [exact H|].
  cbn [run]. apply IH.
  destruct (update_performance b t s) as [x s'] eqn:E.
  exact (reach_update b t s x s' H E).
Qed.

(** Inverting a successful [update_performance] call: one goal per branch
    of [_check_difficulty_transition]. *)
Ltac update_inv H :=
  rewrite update_performance_eq in H;
  let Hod := fresh "Hod" in
  destruct (py_index difficulty_levels (current_difficulty_index _))
    as [?od|] eqn:Hod; [|discriminate H];
  unfold transition_target in H;
  let Hup := fresh "Hup" in let Hhi := fresh "Hhi" in
  destruct (Qle_bool 5 _) eqn:Hup; destruct (_ <? 2) eqn:Hhi; cbn [andb] in H;
  try (let Hdn := fresh "Hdn" in let Hlo := fresh "Hlo" in
       destruct (Qle_bool _ (-3)%Q) eqn:Hdn; destruct (0 <? _) eqn:Hlo;
       cbn [andb] in H);
  cbn [current_difficulty_index p_score] in H;
  let Hnd := fresh "Hnd" in
  match type of H with
  | context [py_index difficulty_levels ?j] =>
      destruct (py_index difficulty_levels j) as [?nd|] eqn:Hnd
  end; inversion H; subst; clear H; norm_cmp.

(** ** Claims *)

(** C1: after the decayed score [p1 = (p + delta) * 0.9] is computed, the
    transition check raises the level and resets the score to exactly [0]
    when [p1 >= 5] below the highest level; otherwise lowers the level and
    resets the score when [p1 <= -3] above the lowest level; otherwise keeps
    both and reports no transition.  The increase test comes first. *)
Theorem update_transition_check b t s r s' :
  update_performance b t s = (inr r, s') ->
  let p1 := ((p_score s + delta b t) * decay_factor)%Q in
  let i := current_difficulty_index s in
  ((5 <= p1)%Q /\ i < 2 ->
     current_difficulty_index s' = i + 1 /\ p_score s' = 0%Q
     /\ transition_occurred r = true) /\
  (~ ((5 <= p1)%Q /\ i < 2) -> (p1 <= -3)%Q /\ 0 < i ->
     current_difficulty_index s' = i - 1 /\ p_score s' = 0%Q
     /\ transition_occurred r = true) /\
  (~ ((5 <= p1)%Q /\ i < 2) -> ~ ((p1 <= -3)%Q /\ 0 < i) ->
     current_difficulty_index s' = i /\ p_score s' = p1
     /\ transition_occurred r = false).
Proof.
  intros H p1 i. unfold p1, i in *. clear p1 i.
  update_inv H; cbn; repeat split; intros;
    repeat match goal with Hc : _ /\ _ |- _ => destruct Hc end;
    try reflexivity; try tauto; exfalso; solve [lra | lia].
Qed.

(** C2: on a call with no transition the stored score becomes
    [(previous + delta) * 0.9], which is also the reported [new_score]; the
    transition check of every call, including the ones that fire, tests that
    decayed value: decay is applied once, after the delta and before the
    check. *)
Theorem update_decay_once b t s r s' :
  update_performance b t s = (inr r, s') ->
  let p1 := ((p_score s + delta b t) * decay_factor)%Q in
  let i := current_difficulty_index s in
  (transition_occurred r = false ->
     p_score s' = p1 /\ new_score r = p_score s') /\
  (transition_occurred r = true <->
     ((5 <= p1)%Q /\ i < 2) \/ ((p1 <= -3)%Q /\ 0 < i)).
Proof.
  intros H p1 i. unfold p1, i in *. clear p1 i.
  update_inv H; cbn; repeat split; intros;
    repeat match goal with Hc : _ /\ _ |- _ => destruct Hc end;
    try reflexivity; try discriminate; try tauto;
    repeat match goal with Hc : _ \/ _ |- _ => destruct Hc as [[? ?]|[? ?]] end;
    exfalso; solve [lra | lia].
Qed.

(** C3: the reward/penalty block adds [+2] with the High Fluency rationale
    when the answer is correct and [t <= 5], [+1] with the Accuracy
    rationale when it is correct and [t > 5], and [-3] with the Inaccurate
    rationale when it is incorrect, whatever [t]; the rationale reported by
    [update_performance] is the one that block chose. *)
Theorem reward_classification b t s :
  (b = true -> (t <= 5)%Q ->
     apply_outcome b t s =
     (inr rationale_high_fluency, set_p_score (p_score s + 2)%Q s)) /\
  (b = true -> (5 < t)%Q ->
     apply_outcome b t s =
     (inr rationale_accuracy, set_p_score (p_score s + 1)%Q s)) /\
  (b = false ->
     apply_outcome b t s =
     (inr rationale_inaccurate, set_p_score (p_score s - 3)%Q s)) /\
  (forall r s', update_performance b t s = (inr r, s') ->
     inr (rationale r) = fst (apply_outcome b t s)).
Proof.
  repeat split; intros; subst.
  - apply Qle_bool_iff in H0. unfold apply_outcome. rewrite H0. reflexivity.
  - apply Qle_bool_false in H0. unfold apply_outcome. rewrite H0. reflexivity.
  - reflexivity.
  - rewrite apply_outcome_eq. cbn [fst].
    destruct (update_performance_ok b t s) as [r' [s'' [E [Hr _]]]].
    + rewrite update_performance_eq in H.
      destruct py_index; [discriminate | inversion H].
    + rewrite H in E. inversion E; subst. rewrite Hr. reflexivity.
Qed.

(** C4 (counterexample): the claim that [score_change] equals [delta * 0.9]
    on every call fails on a call that fires a transition: from
    [(Easy, 4.878)] a correct fast answer moves to Medium, resets the score
    to [0] and reports [score_change = 0 - 4.878 * 0.9 = -4.3902], not
    [1.8]. *)
Lemma score_change_on_transition :
  exists r s',
    update_performance true 1 (mk_engine (4878 # 1000) 0) = (inr r, s') /\
    transition_occurred r = true /\
    ~ (score_change r == delta true 1 * decay_factor)%Q.
Proof.
  eexists; eexists; split; [vm_compute; reflexivity|].
  vm_compute. split; [reflexivity | discriminate].
Qed.

(** C4 (amended): [score_change] is always [new_score - old_score * 0.9];
    on a call with no transition this equals [delta * 0.9], on a call with
    a transition the new score is [0] and it equals [-(old_score * 0.9)]. *)
Theorem score_change_formula b t s r s' :
  update_performance b t s = (inr r, s') ->
  score_change r = (new_score r - old_score r * decay_factor)%Q /\
  (transition_occurred r = false ->
     (score_change r == delta b t * decay_factor)%Q) /\
  (transition_occurred r = true ->
     (score_change r == - (old_score r * decay_factor))%Q).
Proof.
  intro H. update_inv H; cbn; repeat split; intros;
    try discriminate; ring.
Qed.

(** C5 (counterexample): a negative response time is not treated as slow:
    [update_performance true (-1)] from the initial state reports the High
    Fluency rationale, not Accuracy, and adds [+2]. *)
Lemma negative_time_counterexample :
  exists r s',
    update_performance true (-1) init = (inr r, s') /\
    rationale r = rationale_high_fluency /\
    rationale r <> rationale_accuracy /\
    delta true (-1) = 2%Q.
Proof.
  eexists; eexists; split; [vm_compute; reflexivity|].
  vm_compute. repeat split; discriminate.
Qed.

(** C5 (amended): for a negative response time, a correct answer passes the
    fluency test [t <= 5.0]: the call adds [+2], reports the High Fluency
    rationale, and raises no error. *)
Theorem negative_time_high_fluency t s :
  (t < 0)%Q -> 0 <= current_difficulty_index s <= 2 ->
  delta true t = 2%Q /\
  apply_outcome true t s =
    (inr rationale_high_fluency, set_p_score (p_score s + 2)%Q s) /\
  exists r s', update_performance true t s = (inr r, s') /\
               rationale r = rationale_high_fluency.
Proof.
  intros Ht Hi.
  assert (E : Qle_bool t 5 = true) by (apply Qle_bool_iff; lra).
  split; [unfold delta; rewrite E; reflexivity|].
  split; [unfold apply_outcome; rewrite E; reflexivity|].
  destruct (update_performance_ok true t s) as [r [s' [Hu [Hr _]]]].
  - apply py_index_levels_some. lia.
  - exists r, s'. split; [assumption|]. rewrite Hr. unfold rationale_of.
    rewrite E. reflexivity.
Qed.

(** C6: in every session started by [__init__], whatever the sequence of
    [update_performance] and [get_status] calls, the difficulty index stays
    within [[0, 2]]. *)
Theorem difficulty_index_in_range s :
  reachable s -> 0 <= current_difficulty_index s <= 2.
Proof. intro H. apply reachable_inv in H. apply H. Qed.

(** C7 (counterexample): the score does not grow without bound at the
    highest level: no reachable state at Hard has a score above [18]. *)
Lemma hard_score_not_unbounded :
  ~ (forall B : Q, exists s, reachable s /\ current_difficulty_index s = 2 /\
                             (B < p_score s)%Q).
Proof.
  intro H. destruct (H 18%Q) as [s [Hr [_ Hlt]]].
  apply reachable_inv in Hr. destruct Hr as [_ [_ Hp]]. lra.
Qed.

(** C7 (amended): at the highest level a decayed score [>= 5] changes
    neither the level nor resets the score, and at the lowest level a
    decayed score [<= -3] leaves level and score alone; the score is not
    clamped, yet decay keeps every reachable score within [[-27, 18]]. *)
Theorem ceiling_floor_no_reset s :
  reachable s ->
  (-27 <= p_score s <= 18)%Q /\
  forall b t r s', update_performance b t s = (inr r, s') ->
  let p1 := ((p_score s + delta b t) * decay_factor)%Q in
  (current_difficulty_index s = 2 -> (5 <= p1)%Q ->
     current_difficulty_index s' = 2 /\ p_score s' = p1 /\
     transition_occurred r = false) /\
  (current_difficulty_index s = 0 -> (p1 <= -3)%Q ->
     current_difficulty_index s' = 0 /\ p_score s' = p1 /\
     transition_occurred r = false).
Proof.
  intro Hr. split; [apply (reachable_inv s Hr)|].
  intros b t r s' H p1. unfold p1. clear p1.
  update_inv H; cbn; split; intros;
    try (split; [first [reflexivity | assumption] | split; reflexivity]);
    exfalso; solve [lia | lra].
Qed.

(** C8: [get_status] is a pure read: it leaves the engine as it is (the
    stored score keeps full precision) and reports the score rounded to two
    decimals, the current label and index, and the thresholds [5] and
    [-3]. *)
Theorem get_status_pure_read s :
  snd (get_status s) = s /\
  forall d, py_index difficulty_levels (current_difficulty_index s) = Some d ->
  fst (get_status s) =
    inr (mk_status (round2 (p_score s)) d (current_difficulty_index s)
                   5%Q (-3)%Q).
Proof.
  split; [apply get_status_state|].
  intros d Hd. unfold get_status, bind at 1, get at 1, bind at 1.
  rewrite current_difficulty_eq, Hd. reflexivity.
Qed.

(** C9: [generate_puzzle] raises [ValueError] exactly when the label is not
    one of Easy, Medium, Hard; [update_performance] raises nothing in any
    session, for every flag and every response time. *)
Theorem puzzle_error_iff_unknown_and_update_total :
  (forall (Rng : Type) (ge gm gh : Rng -> puzzle * Rng) (d : string) (rng : Rng),
     (exists msg, fst (generate_puzzle ge gm gh d rng) = inl (ValueError msg))
     <-> ~ In d difficulty_levels) /\
  (forall s b t, reachable s ->
     exists r s', update_performance b t s = (inr r, s')).
Proof.
  split.
  - intros Rng ge gm gh d rng. unfold generate_puzzle, operations.
    cbn [find fst].
    destruct (String.eqb "Easy" d) eqn:E1;
      [|destruct (String.eqb "Medium" d) eqn:E2;
        [|destruct (String.eqb "Hard" d) eqn:E3]];
      rewrite ?String.eqb_eq in *; subst.
    1-3: split; [intros [msg Hm]; cbn in Hm;
                 match type of Hm with
                 | context [match ?x with pair _ _ => _ end] => destruct x
                 end; discriminate
                |intro Hn; exfalso; apply Hn; cbn; tauto].
    split; [intros _ | intros _; eexists; reflexivity].
    cbn. intros [Hd|[Hd|[Hd|[]]]]; subst;
      rewrite String.eqb_refl in *; discriminate.
  - intros s b t Hr. apply reachable_inv in Hr.
    destruct (update_performance_ok b t s) as [r [s' [E _]]].
    + apply py_index_levels_some. destruct Hr. lia.
    + exists r, s'. exact E.
Qed.

(** C10: a call reports a transition exactly when the new label differs
    from the old one, exactly when the index changes, and the reported
    [new_score] is the score the engine stores afterwards. *)
Theorem transition_flag_iff_level_change b t s r s' :
  update_performance b t s = (inr r, s') ->
  (transition_occurred r = true <-> new_difficulty r <> old_difficulty r) /\
  (transition_occurred r = true <->
     current_difficulty_index s' <> current_difficulty_index s) /\
  new_score r = p_score s'.
Proof.
  intro H. update_inv H; cbn; try (exfalso; lra).
  all: try (assert (od <> nd) by (eapply py_index_levels_step; eassumption)).
  all: try (assert (od <> nd) by
              (replace (current_difficulty_index s)
                 with (current_difficulty_index s - 1 + 1) in Hod by lia;
               apply not_eq_sym; eapply py_index_levels_step; eassumption)).
  all: try (assert (od = nd) by congruence).
  all: repeat split; intros; try reflexivity; try congruence; lia.
Qed.

Example init_to_medium :
  let '(r1, s1) := update_performance true 2%Q init in
  let '(r2, s2) := update_performance true 2%Q s1 in
  let '(r3, s3) := update_performance true 2%Q s2 in
  let '(r4, s4) := update_performance true 2%Q s3 in
  (p_score s3 == 4878 # 1000)%Q /\ current_difficulty_index s4 = 1
  /\ p_score s4 = 0%Q.
Proof. vm_compute. repeat split; reflexivity. Qed.

(** ** Witnesses: each theorem with a hypothesis, applied at a concrete
    input. *)

(** Computes the call in the first conjunct of the goal and names its
    equation [E]. *)
Ltac run_call :=
  eexists; eexists;
  match goal with
  | |- ?A /\ _ =>
      let E := fresh "E" in
      assert (E : A) by (vm_compute; reflexivity); split; [exact E|]
  end.

(** [(Easy, 4.878)] and a correct answer in one second: the decayed score
    [6.1902] crosses [5] and the level moves to Medium. *)
Lemma update_transition_check_witness :
  exists r s',
    update_performance true 1 (mk_engine (4878 # 1000) 0) = (inr r, s') /\
    current_difficulty_index s' = 1 /\ p_score s' = 0%Q /\
    transition_occurred r = true.
Proof.
  run_call.
  destruct (update_transition_check _ _ _ _ _ E) as [H1 _].
  apply H1. split; [vm_compute; discriminate | cbn; lia].
Defined.

Lemma update_decay_once_witness :
  exists r s',
    update_performance false 7 (mk_engine (1 # 2) 1) = (inr r, s') /\
    p_score s' = (((1 # 2) + delta false 7) * decay_factor)%Q /\
    new_score r = p_score s'.
Proof.
  run_call.
  destruct (update_decay_once _ _ _ _ _ E) as [H1 _].
  apply H1. reflexivity.
Defined.

Lemma reward_classification_witness :
  apply_outcome true 7 init =
    (inr rationale_accuracy, set_p_score (p_score init + 1)%Q init) /\
  exists r s', update_performance true 7 init = (inr r, s') /\
               inr (rationale r) = fst (apply_outcome true 7 init).
Proof.
  destruct (reward_classification true 7 init) as [_ [H2 [_ H4]]].
  split.
  - apply H2; [reflexivity | vm_compute; reflexivity].
  - run_call. apply (H4 _ _ E).
Defined.

Lemma score_change_formula_witness :
  exists r s',
    update_performance true 1 (mk_engine (4878 # 1000) 0) = (inr r, s') /\
    (score_change r == - (old_score r * decay_factor))%Q.
Proof.
  run_call.
  destruct (score_change_formula _ _ _ _ _ E) as [_ [_ H3]].
  apply H3. reflexivity.
Defined.

Lemma negative_time_high_fluency_witness :
  delta true (-1) = 2%Q /\
  exists r s', update_performance true (-1) init = (inr r, s') /\
               rationale r = rationale_high_fluency.
Proof.
  destruct (negative_time_high_fluency (-1) init) as [H1 [_ H3]];
    [reflexivity | cbn; lia | split; assumption].
Defined.

(** Twelve fast correct answers from [__init__]: Medium after four, Hard
    after eight, then the score builds up at Hard. *)
Lemma difficulty_index_in_range_witness :
  current_difficulty_index (run (fast_streak 12) init) = 2 /\
  0 <= current_difficulty_index (run (fast_streak 12) init) <= 2.
Proof.
  split; [vm_compute; reflexivity|].
  apply difficulty_index_in_range. apply run_reachable. constructor.
Defined.

(** At Hard with score [6.1902], one more fast correct answer gives a
    decayed score of about [7.37]: no transition, no reset. *)
Lemma ceiling_floor_no_reset_witness :
  exists r s',
    update_performance true 1 (run (fast_streak 12) init) = (inr r, s') /\
    current_difficulty_index s' = 2 /\
    p_score s' = ((p_score (run (fast_streak 12) init) + delta true 1)
                  * decay_factor)%Q /\
    transition_occurred r = false.
Proof.
  destruct (ceiling_floor_no_reset (run (fast_streak 12) init)) as [_ H];
    [apply run_reachable; constructor|].
  run_call.
  destruct (H _ _ _ _ E) as [H1 _].
  apply H1; [reflexivity | vm_compute; discriminate].
Defined.

(** The status of [(Medium, 4.878)] reports [4.88]; the engine keeps
    [4.878]. *)
Lemma get_status_pure_read_witness :
  fst (get_status (mk_engine (4878 # 1000) 1)) =
    inr (mk_status (488 # 100) "Medium" 1 5%Q (-3)%Q) /\
  snd (get_status (mk_engine (4878 # 1000) 1)) = mk_engine (4878 # 1000) 1.
Proof.
  destruct (get_status_pure_read (mk_engine (4878 # 1000) 1)) as [H1 H2].
  split; [|exact H1].
  rewrite (H2 "Medium"%string); [vm_compute; reflexivity | reflexivity].
Defined.

Lemma puzzle_error_iff_unknown_and_update_total_witness :
  (exists msg, fst (generate_puzzle const_gen const_gen const_gen "Expert" tt)
               = inl (ValueError msg)) /\
  exists r s', update_performance false 0 init = (inr r, s').
Proof.
  destruct puzzle_error_iff_unknown_and_update_total as [H1 H2]. split.
  - apply H1. cbn. intros [H|[H|[H|[]]]]; discriminate.
  - apply H2. constructor.
Defined.

Lemma transition_flag_iff_level_change_witness :
  exists r s',
    update_performance true 1 (mk_engine (4878 # 1000) 0) = (inr r, s') /\
    new_difficulty r <> old_difficulty r.
Proof.
  run_call.
  destruct (transition_flag_iff_level_change _ _ _ _ _ E) as [H1 _].
  apply H1. reflexivity.
Defined.

(** * Further properties of the generators, the simulated user, the tracker
    and the session loop *)

#[export] Instance lcg_WorldSpec : WorldSpec lcg_world.
Proof.
  split.
  - intros a b w Hab. cbn. pose proof (Z.mod_pos_bound (seed w) (b - a + 1)).
    lia.
  - intro w. cbn. pose proof (Z.mod_pos_bound (seed w) 1000).
    unfold Qle, Qlt; cbn; lia.
Qed.

(** Each [randint] and [random] draw in the goal is named, with its range. *)
Ltac draws :=
  repeat match goal with
  | |- context [randint ?a ?b ?w] =>
      let R := fresh "R" in let E := fresh "E" in
      assert (R : a <= fst (randint a b w) <= b)
        by (apply randint_range; cbn; lia);
      destruct (randint a b w) as [?x ?w] eqn:E; cbn [fst] in R; clear E;
      cbv beta iota zeta
  | |- context [random ?w] =>
      let R := fresh "R" in let E := fresh "E" in
      pose proof (random_range w) as R;
      destruct (random w) as [?x ?w] eqn:E; cbn [fst] in R; clear E;
      cbv beta iota zeta
  | |- context [String.eqb ?x ?y] =>
      destruct (String.eqb x y); cbv beta iota zeta
  | |- context [Qltb ?x ?y] =>
      let E := fresh "Hlt" in
      destruct (Qltb x y) eqn:E; cbv beta iota zeta
  end.

Ltac unfold_rand :=
  cbv [rbind rret rand_int rand_random uniform choice];
  cbn [List.length Z.of_nat].

Section Generators_props.
Context {W : Type} `{WorldSpec W}.

(** Easy puzzles: the answer is in [[0, 18]] (a subtraction can give [0])
    and the puzzle is labelled Easy. *)
Theorem easy_puzzle_answer_range (w : W) :
  0 <= answer (fst (generate_easy_puzzle w)) <= 18 /\
  puzzle_difficulty (fst (generate_easy_puzzle w)) = "Easy"%string.
Proof.
  unfold generate_easy_puzzle. unfold_rand. draws.
  all: cbn; split; [lia | reflexivity].
Qed.

(** Medium puzzles: the answer is in [[0, 108]] and the puzzle is
    labelled Medium. *)
Theorem medium_puzzle_answer_range (w : W) :
  0 <= answer (fst (generate_medium_puzzle w)) <= 108 /\
  puzzle_difficulty (fst (generate_medium_puzzle w)) = "Medium"%string.
Proof.
  unfold generate_medium_puzzle. unfold_rand. draws.
  all: cbn; split; [nia | reflexivity].
Qed.

(** Hard puzzles: the answer is in [[0, 1000]] and the puzzle is labelled
    Hard. *)
Theorem hard_puzzle_answer_range (w : W) :
  0 <= answer (fst (generate_hard_puzzle w)) <= 1000 /\
  puzzle_difficulty (fst (generate_hard_puzzle w)) = "Hard"%string.
Proof.
  unfold generate_hard_puzzle. unfold_rand. draws.
  all: cbn; split; [nia | reflexivity].
Qed.
End Generators_props.

Section Simulation_props.
Context {W : Type} `{WorldSpec W}.

(** A simulated response flagged correct carries the puzzle's answer, and
    every simulated response time lies in [[1.4, 21)] seconds, so it is
    never negative. *)
Theorem simulated_response_bounds (p : puzzle) (d : string) (w : W) :
  let '(user_answer, response_time, is_correct) :=
    fst (simulate_user_response p d w) in
  (is_correct = true -> user_answer = answer p) /\
  (7 # 5 <= response_time < 21)%Q.
Proof.
  unfold simulate_user_response. unfold_rand. draws.
  all: cbn [fst]; split; [intro Hc; first [reflexivity | discriminate] |].
  all: nra.
Qed.
End Simulation_props.

(** ** Counting, dictionaries and rounding *)

Lemma count_if_acc {A} (f : A -> bool) (xs : list A) (a : Z) :
  fold_left (fun n x => if f x then n + 1 else n) xs a = a + count_if f xs.
Proof.
  unfold count_if. revert a. induction xs as [|x xs IH]; intro a; cbn.
  - lia.
  - destruct (f x).
    + rewrite (IH (a + 1)), (IH 1). lia.
    + exact (IH a).
Qed.

Lemma count_if_cons {A} (f : A -> bool) (x : A) (xs : list A) :
  count_if f (x :: xs) = (if f x then 1 else 0) + count_if f xs.
Proof.
  unfold count_if at 1. cbn. rewrite count_if_acc. destruct (f x); lia.
Qed.

Lemma count_if_app {A} (f : A -> bool) (xs ys : list A) :
  count_if f (xs ++ ys) = count_if f xs + count_if f ys.
Proof.
  induction xs as [|x xs IH]; cbn [app].
  - unfold count_if at 2. cbn. lia.
  - rewrite !count_if_cons, IH. lia.
Qed.

Lemma count_if_bounds {A} (f : A -> bool) (xs : list A) :
  0 <= count_if f xs <= Z.of_nat (List.length xs).
Proof.
  induction xs as [|x xs IH].
  - unfold count_if. cbn. lia.
  - rewrite count_if_cons. cbn [List.length]. destruct (f x); lia.
Qed.

Lemma dict_get_set (d : list (string * Z)) (k k' : string) (v dflt : Z) :
  dict_get (dict_set d k v) k' dflt =
  if String.eqb k k' then v else dict_get d k' dflt.
Proof.
  induction d as [|[k0 v0] d IH]; cbn.
  - reflexivity.
  - destruct (String.eqb k0 k) eqn:E0.
    + apply String.eqb_eq in E0. subst k0. cbn.
      destruct (String.eqb k k'); reflexivity.
    + cbn. rewrite IH.
      destruct (String.eqb k0 k') eqn:E1; [|reflexivity].
      apply String.eqb_eq in E1. subst k'. rewrite String.eqb_sym, E0. reflexivity.
Qed.

Lemma dict_set_keys (d : list (string * Z)) (k x : string) (v : Z) :
  In x (map fst (dict_set d k v)) -> x = k \/ In x (map fst d).
Proof.
  induction d as [|[k0 v0] d IH]; cbn.
  - intros [H|[]]. left. symmetry. exact H.
  - destruct (String.eqb k0 k); cbn; intros [H|H]; auto.
    destruct (IH H); auto.
Qed.

Lemma dict_set_nodup (d : list (string * Z)) (k : string) (v : Z) :
  NoDup (map fst d) -> NoDup (map fst (dict_set d k v)).
Proof.
  induction d as [|[k0 v0] d IH]; cbn; intro Hd.
  - constructor; [intros []|constructor].
  - inversion Hd as [|? ? Hn Hd']; subst.
    destruct (String.eqb k0 k) eqn:E; cbn; [exact Hd|].
    constructor; [|exact (IH Hd')].
    intro Hin. destruct (dict_set_keys d k k0 v Hin) as [->|Hin'].
    + rewrite String.eqb_refl in E. discriminate.
    + exact (Hn Hin').
Qed.

Lemma dict_incr_sum (d : list (string * Z)) (k : string) :
  fold_right Z.add 0 (map snd (dict_set d k (dict_get d k 0 + 1))) =
  fold_right Z.add 0 (map snd d) + 1.
Proof.
  induction d as [|[k0 v0] d IH]; cbn.
  - lia.
  - destruct (String.eqb k0 k); cbn; [lia|].
    rewrite IH. lia.
Qed.

Lemma round_half_even_range (y : Q) :
  Qfloor y <= round_half_even y <= Qfloor y + 1.
Proof.
  unfold round_half_even.
  destruct (negb _); [lia|]. destruct (negb _); [lia|].
  destruct (Z.even _); lia.
Qed.

Lemma round_half_even_mono (x y : Q) :
  (x <= y)%Q -> round_half_even x <= round_half_even y.
Proof.
  intro Hxy.
  pose proof (Qfloor_resp_le x y Hxy) as Hf.
  destruct (Z.eq_dec (Qfloor x) (Qfloor y)) as [E|NE].
  - unfold round_half_even. rewrite E.
    destruct (Qle_bool (1 # 2) (x - inject_Z (Qfloor y))) eqn:A1;
    destruct (Qle_bool (x - inject_Z (Qfloor y)) (1 # 2)) eqn:A2;
    destruct (Qle_bool (1 # 2) (y - inject_Z (Qfloor y))) eqn:B1;
    destruct (Qle_bool (y - inject_Z (Qfloor y)) (1 # 2)) eqn:B2;
    cbn [negb]; try lia;
    repeat match goal with
    | H : Qle_bool _ _ = true |- _ => apply Qle_bool_iff in H
    | H : Qle_bool _ _ = false |- _ =>
        apply Bool.not_true_iff_false in H; rewrite Qle_bool_iff in H;
        apply Qnot_le_lt in H
    end;
    try (exfalso; lra);
    destruct (Z.even (Qfloor y)); lia.
  - pose proof (round_half_even_range x). pose proof (round_half_even_range y).
    lia.
Qed.

Lemma round_half_even_Z (z : Z) : round_half_even (inject_Z z) = z.
Proof.
  unfold round_half_even. rewrite Qfloor_Z.
  destruct (Qle_bool (1 # 2) (inject_Z z - inject_Z z)) eqn:A.
  - apply Qle_bool_iff in A. exfalso. lra.
  - reflexivity.
Qed.

Lemma round_half_even_bounds (a b : Z) (y : Q) :
  (inject_Z a <= y <= inject_Z b)%Q -> a <= round_half_even y <= b.
Proof.
  intros [H1 H2].
  apply round_half_even_mono in H1. apply round_half_even_mono in H2.
  rewrite round_half_even_Z in H1, H2. lia.
Qed.

Lemma round2_mono (x y : Q) : (x <= y)%Q -> (round2 x <= round2 y)%Q.
Proof.
  intro H. unfold round2, Qle. cbn [Qnum Qden].
  assert (round_half_even (x * 100) <= round_half_even (y * 100)).
  { apply round_half_even_mono. lra. }
  lia.
Qed.

(** A percentage [round(c / t * 100, 1)] of a count [0 <= c <= t] lies in
    [[0, 100]]. *)
Lemma round1_percent (c t : Z) :
  0 <= c <= t -> 0 < t ->
  (0 <= round1 (inject_Z c / inject_Z t * 100) <= 100)%Q.
Proof.
  intros Hc Ht.
  assert (Hy : (inject_Z 0 <= inject_Z c / inject_Z t * 100 * 10 <= inject_Z 1000)%Q).
  { destruct t as [|p|p]; try lia.
    unfold Qdiv, Qinv, inject_Z, Qle, Qmult. cbn [Qnum Qden].
    split; nia. }
  apply round_half_even_bounds in Hy.
  unfold round1, Qle. cbn [Qnum Qden]. lia.
Qed.

Lemma py_min_le (x : Q) (xs : list Q) :
  (py_min x xs <= x)%Q /\ (forall y, In y xs -> (py_min x xs <= y)%Q).
Proof.
  unfold py_min. revert x. induction xs as [|y ys IH]; intro x; cbn.
  - split; [lra | intros _ []].
  - set (m := if Qltb y x then y else x).
    assert (Hm : (m <= x)%Q /\ (m <= y)%Q).
    { unfold m, Qltb. destruct (Qle_bool x y) eqn:E; cbn.
      - apply Qle_bool_iff in E. lra.
      - apply Bool.not_true_iff_false in E. rewrite Qle_bool_iff in E. lra. }
    destruct (IH m) as [H1 H2]. split; [lra|].
    intros z [<-|Hz]; [lra | exact (H2 z Hz)].
Qed.

Lemma py_max_ge (x : Q) (xs : list Q) :
  (x <= py_max x xs)%Q /\ (forall y, In y xs -> (y <= py_max x xs)%Q).
Proof.
  unfold py_max. revert x. induction xs as [|y ys IH]; intro x; cbn.
  - split; [lra | intros _ []].
  - set (m := if Qltb x y then y else x).
    assert (Hm : (x <= m)%Q /\ (y <= m)%Q).
    { unfold m, Qltb. destruct (Qle_bool y x) eqn:E; cbn.
      - apply Qle_bool_iff in E. lra.
      - apply Bool.not_true_iff_false in E. rewrite Qle_bool_iff in E. lra. }
    destruct (IH m) as [H1 H2]. split; [lra|].
    intros z [<-|Hz]; [lra | exact (H2 z Hz)].
Qed.

Lemma last_in {A} (x : A) (xs : list A) (d : A) : In (last (x :: xs) d) (x :: xs).
Proof.
  revert x. induction xs as [|y ys IH]; intro x.
  - left. reflexivity.
  - right. exact (IH y).
Qed.

Lemma difficulty_counts_fold (atts : list attempt) (d : list (string * Z)) :
  let F := fold_left (fun d a =>
             dict_set d (at_difficulty a) (dict_get d (at_difficulty a) 0 + 1))
             atts d in
  (NoDup (map fst d) -> NoDup (map fst F)) /\
  (forall k, dict_get F k 0 =
             dict_get d k 0 + count_if (fun a => String.eqb (at_difficulty a) k) atts) /\
  fold_right Z.add 0 (map snd F) =
  fold_right Z.add 0 (map snd d) + Z.of_nat (List.length atts).
Proof.
  revert d. induction atts as [|a atts IH]; intro d; cbn [fold_left].
  - split; [auto|]. split; [intro k; unfold count_if; cbn; lia | cbn; lia].
  - destruct (IH (dict_set d (at_difficulty a) (dict_get d (at_difficulty a) 0 + 1)))
      as [H1 [H2 H3]].
    split; [|split].
    + intro Hd. apply H1. apply dict_set_nodup. exact Hd.
    + intro k. rewrite H2, dict_get_set, count_if_cons.
      destruct (String.eqb (at_difficulty a) k) eqn:E.
      * apply String.eqb_eq in E. rewrite <- E. lia.
      * lia.
    + rewrite H3, dict_incr_sum. cbn [List.length]. lia.
Qed.

Lemma recent_window (atts : list attempt) (n : Z) :
  let len := Z.of_nat (List.length atts) in
  let k := if n =? 0 then len else if 0 <? n then Z.min n len
           else Z.max 0 (len + n) in
  (if len <? n then atts else py_slice_from atts (- n)) =
  skipn (Z.to_nat (len - k)) atts /\ 0 <= k <= len.
Proof.
  cbv zeta. unfold py_slice_from.
  destruct (Z.eqb_spec n 0) as [->|Hn0].
  - cbn. replace (Z.of_nat (List.length atts) - Z.of_nat (List.length atts)) with 0
      by lia.
    destruct (Z.of_nat (List.length atts) <? 0) eqn:E; [lia|].
    split; [|lia]. rewrite Z.min_l by lia. reflexivity.
  - destruct (Z.ltb_spec (Z.of_nat (List.length atts)) n) as [Hlt|Hge].
    + destruct (Z.ltb_spec 0 n); [|lia].
      rewrite Z.min_r by lia. replace (_ - _) with 0 by lia. split; [reflexivity|lia].
    + destruct (Z.ltb_spec 0 n) as [Hp|Hp].
      * destruct (Z.ltb_spec (- n) 0); [|lia].
        rewrite Z.min_l by lia. split; [f_equal; lia|lia].
      * destruct (Z.ltb_spec (- n) 0); [lia|].
        split; [|lia]. f_equal.
        destruct (Z.le_ge_cases 0 (Z.of_nat (List.length atts) + n)).
        -- rewrite Z.max_r, Z.min_l by lia. lia.
        -- rewrite Z.max_l, Z.min_r by lia. lia.
Qed.

Section Tracker_props.
Context {W : Type} `{World W}.

(** [record_attempt] numbers the attempts it logs [1, 2, 3, ...]: starting
    from a log numbered [1 .. n], it appends exactly one attempt, numbered
    [n + 1], and leaves the session start and the transition log unchanged. *)
Theorem record_attempt_numbering (tr : tracker) (p : puzzle) (user_answer : Z)
  (response_time : Q) (is_correct : bool) (st : status) (w : W) :
  map at_attempt_number (attempts tr) =
    map Z.of_nat (seq 1 (List.length (attempts tr))) ->
  let tr' := fst (record_attempt tr p user_answer response_time is_correct st w) in
  map at_attempt_number (attempts tr') =
    map Z.of_nat (seq 1 (List.length (attempts tr'))) /\
  List.length (attempts tr') = S (List.length (attempts tr)) /\
  session_start tr' = session_start tr /\
  difficulty_transitions tr' = difficulty_transitions tr.
Proof.
  intro Hnum. unfold record_attempt, rbind, rret.
  destruct (time_now w) as [now w']. cbn [fst attempts session_start
    difficulty_transitions].
  rewrite length_app. cbn [List.length]. rewrite Nat.add_1_r.
  split; [|split; [reflexivity | split; reflexivity]].
  rewrite seq_S, !map_app, Hnum. cbn. f_equal. f_equal. lia.
Qed.

(** [get_session_summary] reports an error exactly when no attempt is
    recorded; otherwise its counts are consistent: [correct_attempts] and
    [fast_responses] lie between 0 and [total_attempts], which is the number
    of attempts; both rates lie in [[0, 100]]; [difficulty_transitions] is
    the number of logged transitions; and the final score lies within the
    reported minimum and maximum. *)
Theorem session_summary_consistent (tr : tracker) (w : W) :
  match fst (get_session_summary tr w) with
  | SummaryError msg => attempts tr = [] /\ msg = "No attempts recorded"%string
  | Summary sm =>
      attempts tr <> [] /\
      sm_total_attempts sm = Z.of_nat (List.length (attempts tr)) /\
      0 <= sm_correct_attempts sm <= sm_total_attempts sm /\
      0 <= sm_fast_responses sm <= sm_total_attempts sm /\
      (0 <= sm_accuracy_rate sm <= 100)%Q /\
      (0 <= sm_fast_response_rate sm <= 100)%Q /\
      sm_difficulty_transitions sm =
        Z.of_nat (List.length (difficulty_transitions tr)) /\
      (sm_p_score_min sm <= sm_final_p_score sm <= sm_p_score_max sm)%Q
  end.
Proof.
  unfold get_session_summary.
  destruct (attempts tr) as [|a0 rest] eqn:Ha.
  - cbn. split; reflexivity.
  - cbv [rbind rret]. destruct (time_now w) as [now w']. cbv zeta.
    cbn [fst sm_total_attempts sm_correct_attempts sm_fast_responses
      sm_accuracy_rate sm_fast_response_rate sm_difficulty_transitions
      sm_p_score_min sm_final_p_score sm_p_score_max].
    pose proof (count_if_bounds at_is_correct (a0 :: rest)) as Hc.
    pose proof (count_if_bounds (fun rt => Qle_bool rt 5)
                  (map at_response_time (a0 :: rest))) as Hf.
    rewrite length_map in Hf.
    assert (Hpos : 0 < Z.of_nat (List.length (a0 :: rest))) by (cbn; lia).
    split; [discriminate|]. split; [reflexivity|].
    split; [exact Hc|]. split; [exact Hf|].
    split; [apply round1_percent; lia|].
    split; [apply round1_percent; lia|].
    split; [reflexivity|].
    cbn [map tl].
    pose proof (last_in (at_p_score_after a0) (map at_p_score_after rest) 0%Q)
      as Hin.
    destruct (py_min_le (at_p_score_after a0) (map at_p_score_after rest))
      as [Hm1 Hm2].
    destruct (py_max_ge (at_p_score_after a0) (map at_p_score_after rest))
      as [HM1 HM2].
    destruct Hin as [Hin|Hin].
    + rewrite <- Hin. split; apply round2_mono; assumption.
    + split; apply round2_mono; [apply Hm2 | apply HM2]; exact Hin.
Qed.

(** The difficulty distribution of [get_session_summary] has distinct keys,
    maps every difficulty label to the number of attempts made at it, and
    its counts add up to [total_attempts]. *)
Theorem session_summary_distribution (tr : tracker) (w : W) :
  match fst (get_session_summary tr w) with
  | SummaryError _ => True
  | Summary sm =>
      NoDup (map fst (sm_difficulty_distribution sm)) /\
      (forall k, dict_get (sm_difficulty_distribution sm) k 0 =
                 count_if (fun a => String.eqb (at_difficulty a) k) (attempts tr)) /\
      fold_right Z.add 0 (map snd (sm_difficulty_distribution sm)) =
        sm_total_attempts sm
  end.
Proof.
  unfold get_session_summary.
  destruct (attempts tr) as [|a0 rest] eqn:Ha; [exact I|].
  cbv [rbind rret]. destruct (time_now w) as [now w']. cbv zeta.
  cbn [fst sm_difficulty_distribution sm_total_attempts].
  destruct (difficulty_counts_fold (a0 :: rest) []) as [H1 [H2 H3]].
  split; [apply H1; constructor|].
  split; [intro k; rewrite H2; reflexivity|].
  rewrite H3. reflexivity.
Qed.
End Tracker_props.

(** [get_recent_performance tr n] analyses the last [k] attempts, where [k]
    is [min n len] for [n > 0], all [len] attempts for [n = 0] (the slice
    [[-0:]] is the whole list) and [max 0 (len + n)] for [n < 0]. It reports
    an error exactly when [k = 0]; otherwise [recent_correct] counts the
    correct attempts among those [k], and [recent_accuracy] lies in
    [[0, 100]]. *)
Theorem recent_performance_window (tr : tracker) (n : Z) :
  let len := Z.of_nat (List.length (attempts tr)) in
  let k := if n =? 0 then len else if 0 <? n then Z.min n len
           else Z.max 0 (len + n) in
  match get_recent_performance tr n with
  | RecentError msg => k = 0 /\ msg = "No recent attempts"%string
  | Recent r =>
      0 < k /\ rp_attempts_analyzed r = k /\
      rp_recent_correct r =
        count_if at_is_correct (skipn (Z.to_nat (len - k)) (attempts tr)) /\
      0 <= rp_recent_correct r <= k /\
      (0 <= rp_recent_accuracy r <= 100)%Q
  end.
Proof.
  cbv zeta. unfold get_recent_performance.
  destruct (recent_window (attempts tr) n) as [Hw Hk]. cbv zeta in Hw, Hk.
  rewrite Hw.
  set (k := if n =? 0 then _ else _) in *.
  pose proof (length_skipn (Z.to_nat (Z.of_nat (List.length (attempts tr)) - k))
                (attempts tr)) as Hl.
  destruct (skipn _ (attempts tr)) as [|a rest] eqn:Hs.
  - cbn in Hl. split; [lia | reflexivity].
  - assert (Hlen : Z.of_nat (List.length (a :: rest)) = k) by lia.
    assert (Hkpos : 0 < k) by (cbn [List.length] in Hlen; lia).
    cbv [rp_attempts_analyzed rp_recent_correct rp_recent_accuracy].
    pose proof (count_if_bounds at_is_correct (a :: rest)).
    split; [exact Hkpos|]. split; [exact Hlen|]. split; [reflexivity|].
    split; [lia|]. apply round1_percent; lia.
Qed.

(** After any sequence of [update_performance] and [get_status] calls no
    transition is pending: below the hardest level the score is below the
    promotion threshold [5], and above the easiest level it is above the
    demotion threshold [-3]. *)
Theorem reachable_no_pending_transition (s : engine) :
  reachable s ->
  (current_difficulty_index s < 2 -> (p_score s < 5)%Q) /\
  (0 < current_difficulty_index s -> (-3 < p_score s)%Q).
Proof.
  induction 1 as [| b t s x s' _ IH H | s x s' _ IH H].
  - cbn. split; intros; lra.
  - rewrite update_performance_eq in H.
    destruct (py_index difficulty_levels (current_difficulty_index s));
      [|inversion H; subst; exact IH].
    destruct (transition_target _ _) as [tr s2] eqn:Ht.
    assert (Hs2 : (current_difficulty_index s2 < 2 -> (p_score s2 < 5)%Q) /\
                  (0 < current_difficulty_index s2 -> (-3 < p_score s2)%Q)).
    { unfold transition_target in Ht.
      set (p := ((p_score s + delta b t) * decay_factor)%Q) in Ht.
      set (i := current_difficulty_index s) in Ht.
      destruct (Qle_bool 5 p) eqn:A, (i <? 2) eqn:B; cbn [andb] in Ht;
        try (destruct (Qle_bool p (-3)%Q) eqn:C, (0 <? i) eqn:D;
             cbn [andb] in Ht);
        inversion Ht; subst; cbn [current_difficulty_index p_score]; norm_cmp;
        split; intro; solve [lra | lia]. }
    destruct (py_index difficulty_levels (current_difficulty_index s2));
      inversion H; subst; exact Hs2.
  - pose proof (get_status_state s) as E. rewrite H in E. cbn in E.
    subst. exact IH.
Qed.

(** ** The session loop *)

Lemma py_index_in {A} (l : list A) (i : Z) (x : A) :
  py_index l i = Some x -> In x l.
Proof.
  unfold py_index. cbv zeta.
  destruct (_ && _); [apply nth_error_In|].
  destruct (_ && _); [apply nth_error_In | discriminate].
Qed.

Lemma reachable_current_difficulty (s : engine) :
  reachable s ->
  exists d, current_difficulty s = (inr d, s) /\ In d difficulty_levels.
Proof.
  intro Hr. apply reachable_inv in Hr. destruct Hr as [Hi _].
  assert (Hs : py_index difficulty_levels (current_difficulty_index s) <> None)
    by (apply py_index_levels_some; lia).
  rewrite current_difficulty_eq.
  destruct (py_index difficulty_levels (current_difficulty_index s)) as [d|] eqn:E;
    [|congruence].
  exists d. split; [reflexivity | exact (py_index_in _ _ _ E)].
Qed.

Lemma reachable_get_status (s : engine) :
  reachable s -> exists st, get_status s = (inr st, s).
Proof.
  intro Hr. destruct (reachable_current_difficulty s Hr) as [d [E _]].
  unfold get_status, bind at 1, get at 1, bind at 1. rewrite E.
  eexists. reflexivity.
Qed.

Lemma update_labels (b : bool) (t : Q) (s s' : engine) (r : update_result) :
  update_performance b t s = (inr r, s') ->
  In (old_difficulty r) difficulty_levels /\
  In (new_difficulty r) difficulty_levels /\
  (transition_occurred r = true -> old_difficulty r <> new_difficulty r).
Proof.
  intro H. update_inv H; cbn [old_difficulty new_difficulty transition_occurred].
  all: repeat match goal with
       | H : Some _ = Some _ |- _ => injection H as H; subst
       end.
  all: split; [eapply py_index_in; eassumption|].
  all: split; [eapply py_index_in; eassumption|].
  all: intro Htr; try discriminate Htr.
  all: try (eapply py_index_levels_step; eassumption).
  all: replace (current_difficulty_index s)
         with (current_difficulty_index s - 1 + 1) in Hod by lia;
       apply not_eq_sym; eapply py_index_levels_step; eassumption.
Qed.

Lemma StronglySorted_snoc {A} (R : A -> A -> Prop) (l : list A) (x : A) :
  StronglySorted R l -> Forall (fun y => R y x) l -> StronglySorted R (l ++ [x]).
Proof.
  induction l as [|y l IH]; intros Hs Hf; cbn.
  - repeat constructor.
  - inversion Hs as [|? ? Hs' Hy]; subst. inversion Hf as [|? ? Hyx Hf']; subst.
    constructor; [exact (IH Hs' Hf')|].
    apply Forall_app. split; [exact Hy | constructor; [exact Hyx | constructor]].
Qed.


Lemma sbind_on_engine {W A B} (m : M A) (k : A -> SM W B) e t w x e' :
  m e = (inr x, e') ->
  sbind (on_engine m) k (mk_session e t w) = k x (mk_session e' t w).
Proof. intro E. unfold sbind, on_engine. cbn [eng trk wld]. rewrite E. reflexivity. Qed.

Lemma sbind_on_world {W A B} (m : ST W A) (k : A -> SM W B) e t w x w' :
  m w = (inr x, w') ->
  sbind (on_world m) k (mk_session e t w) = k x (mk_session e t w').
Proof. intro E. unfold sbind, on_world. cbn [eng trk wld]. rewrite E. reflexivity. Qed.

Lemma sbind_draw {W A B} (m : Rand W A) (k : A -> SM W B) e t w x w' :
  m w = (x, w') ->
  sbind (draw m) k (mk_session e t w) = k x (mk_session e t w').
Proof. intro E. unfold sbind, draw. cbn [eng trk wld]. rewrite E. reflexivity. Qed.

Lemma sbind_on_tracker {W B} (f : tracker -> Rand W tracker) (k : unit -> SM W B)
  e t w t' w' :
  f t w = (t', w') ->
  sbind (on_tracker f) k (mk_session e t w) = k tt (mk_session e t' w').
Proof. intro E. unfold sbind, on_tracker. cbn [eng trk wld]. rewrite E. reflexivity. Qed.

Section Session_props.
Context {W : Type} `{WorldSpec W}.

Lemma generated_label (d : string) (w : W) :
  In d difficulty_levels ->
  exists p w', py_generate_puzzle d w = (inr p, w') /\ puzzle_difficulty p = d.
Proof.
  intros [<-|[<-|[<-|[]]]]; unfold py_generate_puzzle, generate_puzzle; cbn.
  - destruct (generate_easy_puzzle w) as [p w'] eqn:E. exists p, w'.
    split; [reflexivity|]. 
    replace p with (fst (generate_easy_puzzle w)) by (rewrite E; reflexivity).
    clear E. unfold generate_easy_puzzle. unfold_rand. draws. all: reflexivity.
  - destruct (generate_medium_puzzle w) as [p w'] eqn:E. exists p, w'.
    split; [reflexivity|]. 
    replace p with (fst (generate_medium_puzzle w)) by (rewrite E; reflexivity).
    clear E. unfold generate_medium_puzzle. unfold_rand. draws. all: reflexivity.
  - destruct (generate_hard_puzzle w) as [p w'] eqn:E. exists p, w'.
    split; [reflexivity|]. 
    replace p with (fst (generate_hard_puzzle w)) by (rewrite E; reflexivity).
    clear E. unfold generate_hard_puzzle. unfold_rand. draws. all: reflexivity.
Qed.

Lemma session_turn_inv (s : session W) (n : nat) :
  session_inv s n ->
  exists s', session_turn (Z.of_nat n + 1) s = (inr tt, s') /\ session_inv s' (S n).
Proof.
  destruct s as [e t w]. intros [Hr [Hnum [Hd [Ht Hs]]]].
  cbn [eng trk wld] in *.
  destruct (reachable_current_difficulty e Hr) as [d [Ed Hin]].
  unfold session_turn.
  erewrite sbind_on_engine by exact Ed.
  destruct (generated_label d w Hin) as [p [w1 [Ep Hpd]]].
  erewrite sbind_on_world by exact Ep.
  erewrite sbind_on_engine by exact Ed.
  destruct (simulate_user_response p d w1) as [[[ua rt] ic] w2] eqn:Esim.
  erewrite sbind_draw by exact Esim. cbv beta iota.
  destruct (update_performance_ok ic rt e) as [r [e1 [Eu _]]].
  { apply py_index_levels_some. destruct (reachable_inv e Hr). lia. }
  erewrite sbind_on_engine by exact Eu.
  assert (Hr1 : reachable e1) by exact (reach_update _ _ _ _ _ Hr Eu).
  destruct (reachable_get_status e1 Hr1) as [st Est].
  erewrite sbind_on_engine by exact Est.
  assert (Hlen : List.length (attempts t) = n).
  { rewrite <- (length_seq n 1), <- (length_map Z.of_nat), <- Hnum, length_map.
    reflexivity. }
  destruct (record_attempt t p ua rt ic st w2) as [t1 w3] eqn:Era.
  erewrite sbind_on_tracker by exact Era.
  unfold record_attempt, rbind, rret in Era.
  destruct (time_now w2) as [now w3']. injection Era as <- <-.
  destruct (update_labels ic rt e e1 r Eu) as [Hold [Hnew Hne]].
  set (a := mk_attempt _ _ _ _ _ _ _ _ _).
  assert (Hnum1 : map at_attempt_number (attempts t ++ [a]) =
                  map Z.of_nat (seq 1 (S n))).
  { rewrite seq_S, !map_app, Hnum. cbn. rewrite Hlen. f_equal. f_equal. lia. }
  assert (Hd1 : Forall (fun a => In (at_difficulty a) difficulty_levels)
                       (attempts t ++ [a])).
  { apply Forall_app. split; [exact Hd|]. constructor; [|constructor].
    cbn. rewrite Hpd. exact Hin. }
  assert (Ht1 : Forall (fun t => tr_from_difficulty t <> tr_to_difficulty t /\
                   In (tr_from_difficulty t) difficulty_levels /\
                   In (tr_to_difficulty t) difficulty_levels /\
                   1 <= tr_attempt_number t <= Z.of_nat (S n))
                (difficulty_transitions t)).
  { eapply Forall_impl; [|exact Ht]. cbv beta. intros x [? [? [? ?]]].
    repeat split; try assumption; lia. }
  destruct (transition_occurred r) eqn:Etr.
  - destruct (time_now w3') as [now2 w4] eqn:Etn.
    erewrite sbind_on_tracker
      by (unfold record_difficulty_transition, rbind, rret; rewrite Etn; reflexivity).
    erewrite sbind_on_engine by exact Est.
    unfold draw. cbn [eng trk wld].
    match goal with |- exists s', (_, ?y) = _ /\ _ => exists y end.
    split; [reflexivity|].
    unfold session_inv. cbn [eng trk attempts difficulty_transitions].
    split; [exact Hr1|]. split; [exact Hnum1|]. split; [exact Hd1|].
    split.
    + apply Forall_app. split; [exact Ht1|]. constructor; [|constructor].
      cbn. split; [exact (Hne eq_refl)|]. split; [exact Hold|].
      split; [exact Hnew|]. lia.
    + rewrite map_app. apply StronglySorted_snoc; [exact Hs|].
      cbn. apply Forall_map. eapply Forall_impl; [|exact Ht].
      cbv beta. intros x [? [? [? ?]]]. lia.
  - unfold sret at 1, sbind at 1. cbv beta iota.
    erewrite sbind_on_engine by exact Est.
    unfold draw. cbn [eng trk wld].
    match goal with |- exists s', (_, ?y) = _ /\ _ => exists y end.
    split; [reflexivity|].
    unfold session_inv. cbn [eng trk attempts difficulty_transitions].
    split; [exact Hr1|]. split; [exact Hnum1|]. split; [exact Hd1|].
    split; [exact Ht1 | exact Hs].
Qed.

Lemma session_loop_inv (f : nat) (s : session W) (n : nat) :
  session_inv s n ->
  exists s', session_loop f (Z.of_nat n + 1) s = (inr tt, s') /\
             session_inv s' (n + f).
Proof.
  revert s n. induction f as [|f IH]; intros s n Hs.
  - exists s. split; [reflexivity|]. rewrite Nat.add_0_r. exact Hs.
  - cbn [session_loop]. unfold sbind at 1.
    destruct (session_turn_inv s n Hs) as [s1 [E1 Hs1]]. rewrite E1.
    replace (Z.of_nat n + 1 + 1) with (Z.of_nat (S n) + 1) by lia.
    destruct (IH s1 (S n) Hs1) as [s2 [E2 Hs2]].
    exists s2. split; [exact E2|]. rewrite Nat.add_succ_r. exact Hs2.
Qed.

(** A session of [num_turns >= 1] turns runs to the end without raising,
    reading every key it prints. Afterwards the engine is a session state,
    the tracker holds attempts numbered [1 .. num_turns], each at one of
    the three difficulty labels, and every logged transition goes between
    two distinct labels at a turn in [[1, num_turns]], at most one per
    turn and in increasing turn order. *)
Theorem session_run_ok (num_turns : Z) (w : W) :
  1 <= num_turns ->
  let '(r, s) := run_math_adventures_session num_turns w in
  r = inr tt /\ reachable (eng s) /\
  map at_attempt_number (attempts (trk s)) =
    map Z.of_nat (seq 1 (Z.to_nat num_turns)) /\
  Forall (fun a => In (at_difficulty a) difficulty_levels) (attempts (trk s)) /\
  Forall (fun t => tr_from_difficulty t <> tr_to_difficulty t /\
                   In (tr_from_difficulty t) difficulty_levels /\
                   In (tr_to_difficulty t) difficulty_levels /\
                   1 <= tr_attempt_number t <= num_turns)
         (difficulty_transitions (trk s)) /\
  StronglySorted Z.lt (map tr_attempt_number (difficulty_transitions (trk s))).
Proof.
  intro Hn. unfold run_math_adventures_session, tracker_init, rbind, rret.
  destruct (time_now w) as [t0 w1].
  assert (Hinit : session_inv (mk_session init (mk_tracker t0 [] []) w1) 0).
  { unfold session_inv. cbn.
    split; [constructor|]. split; [reflexivity|].
    split; [constructor|]. split; constructor. }
  unfold sbind at 1.
  destruct (session_loop_inv (Z.to_nat num_turns) _ 0 Hinit) as [s1 [E1 Hs1]].
  change (Z.of_nat 0 + 1) with 1 in E1. rewrite E1. cbn [Nat.add] in Hs1.
  destruct s1 as [e1 tr1 w2].
  destruct Hs1 as [Hr [Hnum [Hd [Ht Hs]]]]. cbn [eng trk wld] in *.
  assert (Hlen : List.length (attempts tr1) = Z.to_nat num_turns).
  { rewrite <- (length_seq (Z.to_nat num_turns) 1),
      <- (length_map Z.of_nat), <- Hnum, length_map. reflexivity. }
  unfold session_report, sbind at 1. cbv beta iota.
  unfold sbind at 1, draw at 1. cbn [eng trk wld].
  unfold get_session_summary.
  destruct (attempts tr1) as [|a0 rest] eqn:Ha; [cbn in Hlen; lia|].
  cbv [rbind rret]. destruct (time_now w2) as [now w3]. cbv beta iota zeta.
  unfold get_recent_performance. rewrite Ha.
  destruct (recent_window (a0 :: rest) 5) as [Hw Hk]. cbv zeta in Hw, Hk.
  rewrite Hw.
  pose proof (length_skipn
    (Z.to_nat (Z.of_nat (List.length (a0 :: rest)) -
       (if 5 =? 0 then Z.of_nat (List.length (a0 :: rest))
        else if 0 <? 5 then Z.min 5 (Z.of_nat (List.length (a0 :: rest)))
        else Z.max 0 (Z.of_nat (List.length (a0 :: rest)) + 5))))
    (a0 :: rest)) as Hl.
  destruct (skipn _ (a0 :: rest)) as [|b rest'] eqn:Hsk.
  { exfalso. cbn [Z.eqb Z.ltb Z.compare] in Hl. cbn [List.length] in Hl, Hlen.
    lia. }
  cbn [eng trk wld].
  split; [reflexivity|]. split; [exact Hr|]. cbn [eng trk wld]. rewrite Ha.
  split; [exact Hnum|]. split; [exact Hd|].
  split; [|exact Hs].
  eapply Forall_impl; [|exact Ht]. cbv beta. intros x [? [? [? ?]]].
  repeat split; try assumption; lia.
Qed.
End Session_props.


Section Session_edge.
Context {W : Type} `{World W}.

(** With [num_turns <= 0] the loop body never runs, [get_session_summary]
    returns its error dictionary, and reading [summary['total_attempts']]
    raises [KeyError]; nothing was recorded and the engine is as
    initialised. *)
Theorem session_no_turns_key_error (num_turns : Z) (w : W) :
  num_turns <= 0 ->
  let '(r, s) := run_math_adventures_session num_turns w in
  r = inl (KeyError "total_attempts"%string) /\ attempts (trk s) = [] /\
  eng s = init.
Proof.
  intro Hn. unfold run_math_adventures_session, tracker_init, rbind, rret.
  destruct (time_now w) as [t0 w1].
  replace (Z.to_nat num_turns) with 0%nat by lia.
  cbn [session_loop]. unfold sbind at 1, sret at 1. cbv beta iota.
  unfold session_report, sbind at 1. cbv beta iota.
  unfold sbind at 1, draw at 1. cbn [eng trk wld].
  unfold get_session_summary. cbn [attempts]. cbv [rret].
  cbv beta iota. unfold sraise. cbn.
  split; [reflexivity | split; reflexivity].
Qed.
End Session_edge.

(** ** Witnesses of the further properties *)

(** The generators, run on the example world. *)
Lemma easy_puzzle_answer_range_witness :
  answer (fst (generate_easy_puzzle (mk_lcg 42 0))) = 10 /\
  0 <= answer (fst (generate_easy_puzzle (mk_lcg 42 0))) <= 18 /\
  puzzle_difficulty (fst (generate_easy_puzzle (mk_lcg 42 0))) = "Easy"%string.
Proof.
  split; [vm_compute; reflexivity|].
  exact (easy_puzzle_answer_range (mk_lcg 42 0)).
Defined.

Lemma medium_puzzle_answer_range_witness :
  answer (fst (generate_medium_puzzle (mk_lcg 42 0))) = 44 /\
  0 <= answer (fst (generate_medium_puzzle (mk_lcg 42 0))) <= 108 /\
  puzzle_difficulty (fst (generate_medium_puzzle (mk_lcg 42 0))) = "Medium"%string.
Proof.
  split; [vm_compute; reflexivity|].
  exact (medium_puzzle_answer_range (mk_lcg 42 0)).
Defined.

Lemma hard_puzzle_answer_range_witness :
  answer (fst (generate_hard_puzzle (mk_lcg 42 0))) = 80 /\
  0 <= answer (fst (generate_hard_puzzle (mk_lcg 42 0))) <= 1000 /\
  puzzle_difficulty (fst (generate_hard_puzzle (mk_lcg 42 0))) = "Hard"%string.
Proof.
  split; [vm_compute; reflexivity|].
  exact (hard_puzzle_answer_range (mk_lcg 42 0)).
Defined.

(** The simulated user answers the puzzle [1 + 1] correctly. *)
Lemma simulated_response_bounds_witness :
  snd (fst (simulate_user_response (mk_puzzle "1 + 1" 2 "Easy") "Easy"
              (mk_lcg 42 0))) = true /\
  let '(user_answer, response_time, is_correct) :=
    fst (simulate_user_response (mk_puzzle "1 + 1" 2 "Easy") "Easy"
           (mk_lcg 42 0)) in
  (is_correct = true -> user_answer = 2) /\ (7 # 5 <= response_time < 21)%Q.
Proof.
  split; [vm_compute; reflexivity|].
  exact (simulated_response_bounds (mk_puzzle "1 + 1" 2 "Easy") "Easy"%string
           (mk_lcg 42 0)).
Defined.

(** A first attempt logged into a fresh tracker is numbered [1]. *)
Lemma record_attempt_numbering_witness :
  map at_attempt_number (attempts (mk_tracker 0 [] [])) =
    map Z.of_nat (seq 1 (List.length (attempts (mk_tracker 0 [] [])))) /\
  let tr' := fst (record_attempt (mk_tracker 0 [] []) (mk_puzzle "1 + 1" 2 "Easy")
                    2 1 true (mk_status 2 "Easy" 0 5 (-3)) (mk_lcg 42 0)) in
  map at_attempt_number (attempts tr') =
    map Z.of_nat (seq 1 (List.length (attempts tr'))) /\
  List.length (attempts tr') = S (List.length (attempts (mk_tracker 0 [] []))) /\
  session_start tr' = session_start (mk_tracker 0 [] []) /\
  difficulty_transitions tr' = difficulty_transitions (mk_tracker 0 [] []).
Proof.
  split; [reflexivity|].
  apply record_attempt_numbering. reflexivity.
Defined.

(** Six fast correct answers from [__init__]: Medium, with score [3.42]. *)
Lemma reachable_no_pending_transition_witness :
  current_difficulty_index (run (fast_streak 6) init) = 1 /\
  (p_score (run (fast_streak 6) init) < 5)%Q /\
  (-3 < p_score (run (fast_streak 6) init))%Q.
Proof.
  split; [vm_compute; reflexivity|].
  destruct (reachable_no_pending_transition (run (fast_streak 6) init))
    as [H1 H2]; [apply run_reachable; constructor|].
  split; [apply H1 | apply H2]; vm_compute; reflexivity.
Defined.

(** The demonstration run of [main.py]: fifteen turns, two transitions. *)
Lemma session_run_ok_witness :
  List.length (difficulty_transitions
                 (trk (snd (run_math_adventures_session 15 (mk_lcg 42 0))))) = 2%nat /\
  let '(r, s) := run_math_adventures_session 15 (mk_lcg 42 0) in
  r = inr tt /\ reachable (eng s) /\
  map at_attempt_number (attempts (trk s)) =
    map Z.of_nat (seq 1 (Z.to_nat 15)) /\
  Forall (fun a => In (at_difficulty a) difficulty_levels) (attempts (trk s)) /\
  Forall (fun t => tr_from_difficulty t <> tr_to_difficulty t /\
                   In (tr_from_difficulty t) difficulty_levels /\
                   In (tr_to_difficulty t) difficulty_levels /\
                   1 <= tr_attempt_number t <= 15)
         (difficulty_transitions (trk s)) /\
  StronglySorted Z.lt (map tr_attempt_number (difficulty_transitions (trk s))).
Proof.
  split; [vm_compute; reflexivity|].
  apply (session_run_ok 15 (mk_lcg 42 0)). lia.
Defined.

Lemma session_no_turns_key_error_witness :
  let '(r, s) := run_math_adventures_session 0 (mk_lcg 42 0) in
  r = inl (KeyError "total_attempts"%string) /\ attempts (trk s) = [] /\
  eng s = init.
Proof.
  apply (session_no_turns_key_error 0 (mk_lcg 42 0)). lia.
Defined.
